(** * nxautorag: the query-answering core of the backend

    A shallow embedding of [backend/api/query.py] (the generation-backend
    resolver [get_llm], the retriever loader, the module-level RAG chain and
    the [/query] and [/rag] endpoints) and of [backend/utils/vectorstore.py]
    (the embedding resolver and the index loader), with the properties the
    specification states about them; and of the two forms of the frontend
    that call them ([QueryInterface.jsx], [DataSourceConfig.jsx]). *)

From Stdlib Require Import ZArith NArith List String Ascii Lia Bool.
From Stdlib Require Import Floats.SpecFloat.
From stdpp Require Import base option list strings gmap pretty.

Local Open Scope N_scope.

(** ** Python strings

    A Python [str] is a sequence of Unicode code points. *)

Module PyStr.

Definition pystr := list N.

(** A source-code literal: every character of it is its own code point. *)
Definition py (s : string) : pystr :=
  map N_of_ascii (list_ascii_of_string s).

(** [Py_UNICODE_ISSPACE]: the code points [str.strip()] removes. *)
Definition isspace (c : N) : bool :=
  ((9 <=? c) && (c <=? 13)) || ((28 <=? c) && (c <=? 32))
  || (c =? 133) || (c =? 160) || (c =? 5760)
  || ((8192 <=? c) && (c <=? 8202))
  || (c =? 8232) || (c =? 8233) || (c =? 8239) || (c =? 8287)
  || (c =? 12288).

Fixpoint lstrip (s : pystr) : pystr :=
  match s with
  | c :: s' => if isspace c then lstrip s' else s
  | [] => []
  end.

Definition rstrip (s : pystr) : pystr := rev (lstrip (rev s)).

(** [s.strip()] *)
Definition strip (s : pystr) : pystr := rstrip (lstrip s).

(** [s.startswith(p)] *)
Fixpoint startswith (p s : pystr) : bool :=
  match p, s with
  | [], _ => true
  | a :: p', b :: s' => (a =? b) && startswith p' s'
  | _ :: _, [] => false
  end.

(** [sep in s] *)
Fixpoint contains (sep s : pystr) : bool :=
  startswith sep s ||
  match s with
  | [] => false
  | _ :: s' => contains sep s'
  end.

(** [s.find(sep)]: index of the first occurrence. *)
Fixpoint find (sep s : pystr) : option nat :=
  if startswith sep s then Some 0%nat
  else match s with
       | [] => None
       | _ :: s' => S <$> find sep s'
       end.

(** [s.split(sep)] for a non-empty [sep]: cut at the first occurrence,
    continue behind it.  Every cut removes at least one code point, so
    [length s] rounds are enough. *)
Fixpoint split_loop (rounds : nat) (sep s : pystr) : list pystr :=
  match rounds with
  | O => [s]
  | S r =>
      match find sep s with
      | None => [s]
      | Some i => take i s :: split_loop r sep (drop (i + length sep) s)
      end
  end.

Definition split (sep s : pystr) : list pystr :=
  split_loop (length s) sep s.

(** [sep.join(parts)] *)
Fixpoint join (sep : pystr) (parts : list pystr) : pystr :=
  match parts with
  | [] => []
  | [p] => p
  | p :: rest => p ++ sep ++ join sep rest
  end.

(** [s.lower()] on the ASCII letters; no other code point lowercases to an
    ASCII letter that the source looks for. *)
Definition lower_char (c : N) : N :=
  if (65 <=? c) && (c <=? 90) then c + 32 else c.

Definition lower (s : pystr) : pystr := map lower_char s.

End PyStr.
Import PyStr.
Coercion py : string >-> pystr.


(** ** Exceptions, results and the effects of a call *)

Inductive exn :=
| HTTPException (status_code : Z) (detail : pystr)
| PyError (kind : string) (msg : pystr).

(** [str(e)]; an [HTTPException] prints as its status code and detail. *)
Definition str_exn (e : exn) : pystr :=
  match e with
  | HTTPException c d => py (pretty c) ++ py ": " ++ d
  | PyError _ m => m
  end.

Inductive result (A : Type) :=
| Ok (a : A)
| Raise (e : exn).
Arguments Ok {A} a.
Arguments Raise {A} e.

Definition AttributeError (type attr : string) : exn :=
  PyError "AttributeError"
    (py "'" ++ py type ++ py "' object has no attribute '" ++ py attr ++ py "'").

(** *** What the two modules construct *)

(** [pipeline(prompt)[0]["generated_text"]] of a transformers pipeline. *)
Definition pipeline_fn := pystr -> result pystr.

Inductive llm :=
| HFWrapper (pipeline : pipeline_fn) (is_t5 : bool)
| HuggingFaceHub (repo_id : option pystr) (huggingfacehub_api_token : option pystr)
| AzureOpenAI (deployment_name model_name : option pystr)
              (client_env : gmap pystr pystr).

Inductive embeddings :=
| AzureOpenAIEmbeddings (azure_deployment : option pystr)
| HuggingFaceEmbeddings (model_name : pystr)
| OpenAIEmbeddings (model : pystr)
| FakeEmbeddings (size : Z).

Record document := { page_content : pystr }.

(** A loaded FAISS index, seen through [similarity_search(query, k)]. *)
Definition vectorstore := pystr -> nat -> result (list document).

(** [vs.as_retriever(search_kwargs={"k": k})] *)
Record retriever := as_retriever { r_store : vectorstore; r_k : nat }.

Definition get_relevant_documents (r : retriever) (q : pystr)
  : result (list document) := r_store r q (r_k r).

(** Constructions a call attempts, in the order it attempts them. *)
Inductive event :=
| EvPipeline (task : pystr) (model : option pystr) (device : Z)
| EvHuggingFaceHub (repo_id token : option pystr)
| EvAzureOpenAI (deployment_name model_name : option pystr)
| EvEmbeddings (e : embeddings)
| EvLoadLocal (path : pystr).

#[warnings="-register-all"]
Inductive json :=
| JNull
| JBool (b : bool)
| JInt (z : Z)
| JFloat (f : spec_float)
| JStr (s : pystr)
| JArr (l : list json)
| JObj (m : gmap pystr json).

(** *** Everything outside the two modules

    The file system, the model libraries and the remote services, as the
    code observes them.  [read_config] is the outcome of opening and parsing
    [./configs/latest.json] when it exists, a file that holds a JSON
    object: the entries of its ["llm_config"] object, each a string or
    [null] (an entry [Some None]), and [None] when the object has no such
    key; a file that cannot be read or parsed, or whose ["llm_config"] is
    not an object, is an error, which both readers catch. *)
Record world := {
  path_exists : pystr -> bool;
  read_config : result (option (gmap pystr (option pystr)));
  cuda_is_available : bool;
  transformers_pipeline : pystr -> option pystr -> Z -> result pipeline_fn;
  HuggingFaceHub_init : option pystr -> option pystr -> option exn;
  AzureOpenAI_init : gmap pystr pystr -> option pystr -> option pystr -> option exn;
  embeddings_init : gmap pystr pystr -> embeddings -> option exn;
  FAISS_load_local : pystr -> embeddings -> result vectorstore;
  hub_generate : option pystr -> option pystr -> pystr -> result pystr;
  azure_generate : gmap pystr pystr -> option pystr -> option pystr -> pystr -> result pystr;
  validation_error : json -> exn
}.

(** *** The monad: process environment and attempted constructions *)

Record state := { environ : gmap pystr pystr; trace : list event }.

Definition M (A : Type) := state -> result A * state.

#[global] Instance M_ret : MRet M := λ A a s, (Ok a, s).
#[global] Instance M_bind : MBind M := λ A B k m s,
  match m s with
  | (Ok a, s') => k a s'
  | (Raise e, s') => (Raise e, s')
  end.

Definition raise {A} (e : exn) : M A := λ s, (Raise e, s).
Definition lift {A} (r : result A) : M A := λ s, (r, s).

(** [try: body  except Exception as e: handler] *)
Definition try_except {A} (body : M A) (handler : exn -> M A) : M A := λ s,
  match body s with
  | (Raise e, s') => handler e s'
  | r => r
  end.

Definition log (ev : event) : M unit := λ s,
  (Ok tt, {| environ := environ s; trace := trace s ++ [ev] |}).

Definition get_environ : M (gmap pystr pystr) := λ s, (Ok (environ s), s).

(** *** Assigning to [os.environ]

    On a POSIX system [os.environ.__setitem__] refuses a value that is
    not a [str] with a [TypeError], encodes it with the file-system
    encoding (UTF-8, error handler [surrogateescape]) and hands the bytes
    to [putenv]: a surrogate outside U+DC80..U+DCFF cannot be encoded
    ([UnicodeEncodeError]), and an embedded NUL is refused
    ([ValueError]).  Nothing is stored when it raises. *)

Definition is_surrogate (c : N) : bool := (55296 <=? c) && (c <=? 57343).
Definition escapable (c : N) : bool := (56448 <=? c) && (c <=? 56575).

(** Length of the run of surrogates [s] starts with. *)
Fixpoint surrogate_run (s : pystr) : nat :=
  match s with
  | c :: s' => if is_surrogate c then S (surrogate_run s') else 0%nat
  | [] => 0%nat
  end.

Definition hex_digit (d : N) : N := if d <? 10 then 48 + d else 87 + d.

(** ["%04x"] *)
Definition hex4 (c : N) : pystr :=
  [hex_digit (c / 4096 mod 16); hex_digit (c / 256 mod 16);
   hex_digit (c / 16 mod 16); hex_digit (c mod 16)].

(** [str(e)] of the [UnicodeEncodeError] for the code points from
    [start] to before [stop], the first of them [c]. *)
Definition encode_error_message (c : N) (start stop : nat) : pystr :=
  if Nat.eqb stop (S start) then
    py "'utf-8' codec can't encode character '\u" ++ hex4 c ++ py "' in position "
    ++ py (pretty start) ++ py ": surrogates not allowed"
  else
    py "'utf-8' codec can't encode characters in position "
    ++ py (pretty start) ++ py "-" ++ py (pretty (Nat.pred stop))
    ++ py ": surrogates not allowed".

(** The error of encoding [s], read from position [i] on: the first
    surrogate that cannot be escaped, with the run of surrogates it
    starts. *)
Fixpoint encode_error (i : nat) (s : pystr) : option exn :=
  match s with
  | [] => None
  | c :: s' =>
      if is_surrogate c && negb (escapable c)
      then Some (PyError "UnicodeEncodeError"
                   (encode_error_message c i (i + surrogate_run s)))
      else encode_error (S i) s'
  end.

(** What [os.environ[k] = v] raises for a string [v], if anything. *)
Definition putenv_error (v : pystr) : option exn :=
  match encode_error 0 v with
  | Some e => Some e
  | None =>
      if bool_decide (0 ∈ v)
      then Some (PyError "ValueError" "embedded null byte")
      else None
  end.

(** What it raises for a value that may be [None]. *)
Definition assign_error (v : option pystr) : option exn :=
  match v with
  | Some v => putenv_error v
  | None => Some (PyError "TypeError" "str expected, not NoneType")
  end.

(** [os.environ[k] = v] *)
Definition setenv (k : pystr) (v : option pystr) : M unit := λ s,
  match v with
  | Some v =>
      match putenv_error v with
      | None => (Ok tt, {| environ := <[k := v]> (environ s); trace := trace s |})
      | Some e => (Raise e, s)
      end
  | None => (Raise (PyError "TypeError" "str expected, not NoneType"), s)
  end.

(** Truth value of an optional string: [None] and [""] are false. *)
Definition truthy (v : option pystr) : bool :=
  match v with
  | Some (_ :: _) => true
  | _ => false
  end.

(** How an f-string prints an optional string. *)
Definition fmt (v : option pystr) : pystr := default (py "None") v.

(** ** utils/vectorstore.py *)

Definition DEFAULT_EMBEDDING_MODEL : pystr := "sentence-transformers/all-MiniLM-L6-v2".

Definition config_path : pystr := "./configs/latest.json".
Definition vectorstore_path : pystr := "./vectorstore".

Section VectorstoreUtils.
Variable w : world.

(** Calling one of the embedding constructors. *)
Definition new_embeddings (e : embeddings) : M embeddings :=
  _ ← log (EvEmbeddings e);
  env ← get_environ;
  match embeddings_init w env e with
  | None => mret e
  | Some err => raise err
  end.

(** [FakeEmbeddings(size=...)] only stores its size. *)
Definition new_fake_embeddings (size : Z) : M embeddings :=
  _ ← log (EvEmbeddings (FakeEmbeddings size));
  mret (FakeEmbeddings size).

(** The guard of the enterprise branch, on the parsed ["llm_config"]. *)
Definition azure_configured (llm_config : gmap pystr (option pystr)) : bool :=
  truthy (mjoin (llm_config !! py "api_token"))
  && bool_decide (mjoin (llm_config !! py "llm_provider") = Some (py "azure")).

(** The first [try] block; [None] stands for leaving it without a
    [return]. *)
Definition embeddings_from_config : M (option embeddings) :=
  try_except
    (if path_exists w config_path then
       config ← lift (read_config w);
       let llm_config := default ∅ config in
       if azure_configured llm_config then
         _ ← setenv "OPENAI_API_KEY" (mjoin (llm_config !! py "api_token"));
         _ ← setenv "OPENAI_API_VERSION"
               (default (Some (py "2024-05-01-preview")) (llm_config !! py "api_version"));
         _ ← setenv "OPENAI_API_BASE"
               (default (Some (py "")) (llm_config !! py "azure_endpoint"));
         _ ← setenv "OPENAI_API_TYPE" (Some (py "azure"));
         e ← try_except
               (new_embeddings (AzureOpenAIEmbeddings (Some (py "text-embedding-ada-002"))))
               (λ embedding_error,
                  new_embeddings
                    (AzureOpenAIEmbeddings (mjoin (llm_config !! py "azure_deployment"))));
         mret (Some e)
       else mret None
     else mret None)
    (λ e, mret None).

Definition get_embeddings : M embeddings :=
  r ← embeddings_from_config;
  match r with
  | Some e => mret e
  | None =>
      r ← try_except
            (e ← new_embeddings (HuggingFaceEmbeddings DEFAULT_EMBEDDING_MODEL);
             mret (Some e))
            (λ e, mret None);
      match r with
      | Some e => mret e
      | None =>
          r ← try_except
                (e ← new_embeddings (OpenAIEmbeddings "text-embedding-ada-002");
                 mret (Some e))
                (λ e, mret None);
          match r with
          | Some e => mret e
          | None => new_fake_embeddings 384
          end
      end
  end.

Definition load_local (path : pystr) (e : embeddings) : M vectorstore :=
  _ ← log (EvLoadLocal path);
  lift (FAISS_load_local w path e).

Definition load_vectorstore (path : pystr) : M (option vectorstore) :=
  if negb (path_exists w path) then mret None
  else
    embeddings ← get_embeddings;
    vs ← load_local path embeddings;
    mret (Some vs).

End VectorstoreUtils.

(** ** api/query.py *)

Record QueryRequest := { question : pystr; include_sources : bool }.

(** [HFWrapper._call(prompt)] *)
Definition HFWrapper_call (pipeline : pipeline_fn) (is_t5 : bool) (prompt : pystr)
  : result pystr :=
  if is_t5 then
    match pipeline prompt with
    | Ok result => Ok (strip result)
    | Raise e => Raise e
    end
  else
    match pipeline prompt with
    | Ok result => Ok (strip (drop (length prompt) result))
    | Raise e => Raise e
    end.

Definition fallback_model : pystr := "google/flan-t5-base".
Definition gated_model : pystr := "mistralai/Mixtral-8x7B-Instruct-v0.1".

(** The prompt template, cut at its two placeholders. *)
Definition template_head : pystr := "
        You are an AI assistant for question-answering tasks. Use the following pieces of retrieved context to answer the user's question. 
        If you don't know the answer or if the answer is not contained in the provided context, just say that you don't know.
        Use only the information provided in the context to answer the question. Do not use prior knowledge.
        Keep the answer concise - no more than three sentences maximum.
        
        Question: ".

Definition template_mid : pystr := " 
        
        Context: ".

Definition template_tail : pystr := " 
        
        Answer:
        ".

Definition rag_prompt (question context : pystr) : pystr :=
  template_head ++ question ++ template_mid ++ context ++ template_tail.

Definition format_docs (docs : list document) : pystr :=
  join [10; 10] (map page_content docs).

(** The chain [create_rag_chain] returns: a constant message, or the
    retrieve-prompt-generate pipeline over the retriever and backend it
    was built with. *)
Inductive chain :=
| MessageChain (message : pystr)
| RagChain (r : retriever) (l : llm).

(** The dictionaries the endpoints return, by their keys. *)
Record response := {
  answer : option pystr;
  sources : option (list pystr);
  status : option pystr;
  message : option pystr;
  output : option pystr
}.

Definition error_response (msg : pystr) : response :=
  {| answer := None; sources := None;
     status := Some (py "error"); message := Some msg; output := None |}.

Definition answer_response (a : pystr) : response :=
  {| answer := Some a; sources := None;
     status := None; message := None; output := None |}.

Definition set_sources (r : response) (l : list pystr) : response :=
  {| answer := answer r; sources := Some l;
     status := status r; message := message r; output := output r |}.

Definition output_response (o : pystr) : response :=
  {| answer := None; sources := None;
     status := None; message := None; output := Some o |}.

Definition answer_marker : pystr := "Answer:".

(** The cleaning step of [query]: keep what follows the answer cue.
    [split] never returns an empty list, so [[-1]] always exists. *)
Definition extract_answer (raw_answer : pystr) : pystr :=
  if contains answer_marker raw_answer
  then strip (List.last (split answer_marker raw_answer) [])
  else raw_answer.

Definition type_name (v : json) : string :=
  match v with
  | JNull => "NoneType"
  | JBool _ => "bool"
  | JInt _ => "int"
  | JFloat _ => "float"
  | JStr _ => "str"
  | JArr _ => "list"
  | JObj _ => "dict"
  end.

(** [v.get(k, d)] on a decoded JSON value: only objects have [get]. *)
Definition json_get (v : json) (k : pystr) (d : json) : result json :=
  match v with
  | JObj m => Ok (default d (m !! k))
  | other => Raise (AttributeError (type_name other) "get")
  end.

(** Python's truth value of a decoded JSON value. *)
Definition json_truthy (v : json) : bool :=
  match v with
  | JNull => false
  | JBool b => b
  | JInt z => negb (z =? 0)%Z
  | JFloat (S754_zero _) => false
  | JFloat _ => true
  | JStr s => negb (Nat.eqb (length s) 0)
  | JArr l => negb (Nat.eqb (length l) 0)
  | JObj m => negb (Nat.eqb (size m) 0)
  end.

Section Query.
Variable w : world.
(** [global_config] of the ingestion module. *)
Variable global_config : gmap pystr (option pystr).

(** [QueryRequest(question=v)]: the field is declared [str]. *)
Definition new_QueryRequest (v : json) : result QueryRequest :=
  match v with
  | JStr q => Ok {| question := q; include_sources := false |}
  | other => Raise (validation_error w other)
  end.

Definition new_pipeline (task : pystr) (model : option pystr) (device : Z)
  : M pipeline_fn :=
  _ ← log (EvPipeline task model device);
  lift (transformers_pipeline w task model device).

Definition new_HuggingFaceHub (repo_id token : option pystr) : M llm :=
  _ ← log (EvHuggingFaceHub repo_id token);
  match HuggingFaceHub_init w repo_id token with
  | None => mret (HuggingFaceHub repo_id token)
  | Some err => raise err
  end.

Definition new_AzureOpenAI (deployment_name model_name : option pystr) : M llm :=
  _ ← log (EvAzureOpenAI deployment_name model_name);
  env ← get_environ;
  match AzureOpenAI_init w env deployment_name model_name with
  | None => mret (AzureOpenAI deployment_name model_name env)
  | Some err => raise err
  end.

Definition device : Z := if cuda_is_available w then 0%Z else (-1)%Z.

(** The settings read from [./configs/latest.json]; empty when the file is
    absent, unreadable or has no ["llm_config"]. *)
Definition latest_config : gmap pystr (option pystr) :=
  if path_exists w config_path then
    match read_config w with
    | Ok (Some llm_data) =>
        <[py "provider" := mjoin (llm_data !! py "llm_provider")]>
        (<[py "model" := mjoin (llm_data !! py "llm_model")]>
        (<[py "token" := mjoin (llm_data !! py "api_token")]>
        (<[py "azure_endpoint" := mjoin (llm_data !! py "azure_endpoint")]>
        (<[py "azure_deployment" := mjoin (llm_data !! py "azure_deployment")]>
        (<[py "api_version" := mjoin (llm_data !! py "api_version")]> ∅)))))
    | _ => ∅
    end
  else ∅.

Definition config_to_use : gmap pystr (option pystr) :=
  if bool_decide (latest_config = ∅) then global_config else latest_config.

Definition provider : option pystr :=
  default (Some (py "local")) (config_to_use !! py "provider").

Definition model : option pystr :=
  default (Some (py "google/flan-t5-base")) (config_to_use !! py "model").

(** The token, stripped when there is one. *)
Definition token : option pystr :=
  let token := default (Some (py "")) (config_to_use !! py "token") in
  if truthy token then strip <$> token else token.

(** The block that builds the wrapper around the fallback model; the
    source has it twice, in the [try] and in the [except] of the
    HuggingFace branch. *)
Definition local_fallback : M llm :=
  pipe ← new_pipeline "text2text-generation" (Some fallback_model) device;
  mret (HFWrapper pipe true).

Definition get_llm : M llm :=
  if bool_decide (provider = Some (py "local")) then
    try_except
      (pipe ← new_pipeline "text-generation" model device;
       match model with
       | Some m => mret (HFWrapper pipe (contains "t5" (lower m)))
       | None => raise (AttributeError "NoneType" "lower")
       end)
      (λ e, raise (HTTPException 500
                     (py "Error loading local model: " ++ str_exn e)))
  else if bool_decide (provider = Some (py "hf_free"))
          || bool_decide (provider = Some (py "hf_paid")) then
    try_except
      (if negb (truthy token) || bool_decide (model = Some gated_model)
       then local_fallback
       else new_HuggingFaceHub model token)
      (λ e,
         try_except local_fallback
           (λ inner_e, raise (HTTPException 500
                     (py "Error loading fallback model: " ++ str_exn inner_e))))
  else if bool_decide (provider = Some (py "azure")) then
    try_except
      (_ ← setenv "OPENAI_API_KEY" token;
       _ ← setenv "OPENAI_API_VERSION"
             (default (Some (py "2024-05-01-preview")) (config_to_use !! py "api_version"));
       _ ← setenv "OPENAI_API_BASE"
             (default (Some (py "")) (config_to_use !! py "azure_endpoint"));
       _ ← setenv "OPENAI_API_TYPE" (Some (py "azure"));
       new_AzureOpenAI (default None (config_to_use !! py "azure_deployment")) model)
      (λ e, raise (HTTPException 500
                     (py "Error loading Azure OpenAI model: " ++ str_exn e)))
  else
    raise (HTTPException 400 (py "Unsupported LLM provider: " ++ fmt provider)).

Definition get_retriever : M (option retriever) :=
  if negb (path_exists w vectorstore_path) then mret None
  else
    try_except
      (embeddings ← get_embeddings w;
       vs ← load_local w vectorstore_path embeddings;
       mret (Some (as_retriever vs 4)))
      (λ e, mret None).

Definition create_rag_chain : M chain :=
  try_except
    (retriever ← get_retriever;
     match retriever with
     | None =>
         mret (MessageChain
           "No documents have been ingested yet. Please ingest some documents first.")
     | Some retriever =>
         llm ← get_llm;
         mret (RagChain retriever llm)
     end)
    (λ e, mret (MessageChain (py "Error creating RAG chain: " ++ str_exn e))).

(** [llm.invoke(prompt)] *)
Definition llm_invoke (l : llm) (prompt : pystr) : result pystr :=
  match l with
  | HFWrapper pipeline is_t5 => HFWrapper_call pipeline is_t5 prompt
  | HuggingFaceHub repo_id tok => hub_generate w repo_id tok prompt
  | AzureOpenAI deployment_name model_name env =>
      azure_generate w env deployment_name model_name prompt
  end.

(** [chain.invoke(question)] *)
Definition chain_invoke (c : chain) (question : pystr) : result pystr :=
  match c with
  | MessageChain message => Ok message
  | RagChain retriever llm =>
      match get_relevant_documents retriever question with
      | Ok docs => llm_invoke llm (rag_prompt question (format_docs docs))
      | Raise e => Raise e
      end
  end.

(** The [/query] endpoint; [rag_chain] is the module-level chain. *)
Definition query (rag_chain : chain) (request : QueryRequest) : M response :=
  try_except
    (r ← get_retriever;
     match r with
     | None =>
         mret (error_response
                 "No vector store available. Please ingest documents first.")
     | Some _ =>
         raw_answer ← lift (chain_invoke rag_chain (question request));
         let answer := extract_answer raw_answer in
         let response := answer_response answer in
         retriever ← get_retriever;
         docs ← match retriever with
                | Some retriever =>
                    lift (get_relevant_documents retriever (question request))
                | None =>
                    raise (AttributeError "NoneType" "get_relevant_documents")
                end;
         if include_sources request
         then mret (set_sources response (map page_content docs))
         else mret response
     end)
    (λ e, mret (error_response (str_exn e))).

(** The [/rag] endpoint. *)
Definition rag (rag_chain : chain) (input_data : gmap pystr json) : M response :=
  try_except
    (question ← lift (json_get (default (JObj ∅) (input_data !! py "input"))
                               "question" (JStr ""));
     if negb (json_truthy question) then
       mret (error_response "No question provided")
     else
       request ← lift (new_QueryRequest question);
       result ← query rag_chain request;
       match answer result with
       | Some a => mret (output_response a)
       | None =>
           mret (output_response
                   (py "Error: " ++ default (py "Unknown error") (message result)))
       end)
    (λ e, mret (output_response (py "Error: " ++ str_exn e))).

End Query.

(** ** Vocabulary of the statements *)

(** [sep] occurs in [s] with [pre] before it and [post] behind it. *)
Definition occurs_at (sep s pre post : pystr) : Prop := s = pre ++ sep ++ post.

Definition occurs (sep s : pystr) : Prop := ∃ pre post, occurs_at sep s pre post.

(** The occurrence behind [pre] is the last one: none starts further right. *)
Definition last_occurrence (sep s pre post : pystr) : Prop :=
  occurs_at sep s pre post ∧
  ∀ pre' post', occurs_at sep s pre' post' → (length pre' ≤ length pre)%nat.

(** No proper non-empty prefix of [sep] is also a suffix of it, so two
    occurrences of [sep] never overlap. *)
Definition unbordered (sep : pystr) : Prop :=
  ∀ u v t, u ≠ [] → (length u < length sep)%nat → sep ++ t ≠ u ++ sep ++ v.

Definition all_space (s : pystr) : Prop := Forall (λ c, isspace c = true) s.

Definition head_not_space (s : pystr) : Prop :=
  ∀ c s', s = c :: s' → isspace c = false.

Definition last_not_space (s : pystr) : Prop :=
  ∀ c s', s = s' ++ [c] → isspace c = false.

(** No white space at either end. *)
Definition trimmed (s : pystr) : Prop := head_not_space s ∧ last_not_space s.

(** *** The embedding ladder, as data *)

(** Try the constructions in order; stop at the first that does not raise;
    behind the last one stands the stub.  Returns what was tried and what
    is returned. *)
Fixpoint first_success (init : embeddings → option exn)
    (attempts : list embeddings) (stub : embeddings)
  : list embeddings * embeddings :=
  match attempts with
  | [] => ([stub], stub)
  | a :: rest =>
      match init a with
      | None => ([a], a)
      | Some _ =>
          let '(tried, e) := first_success init rest stub in (a :: tried, e)
      end
  end.

Definition llm_config_of (w : world) : gmap pystr (option pystr) :=
  match read_config w with
  | Ok (Some c) => c
  | _ => ∅
  end.

(** What the enterprise branch assigns to the process environment, in
    the order of the assignments. *)
Definition azure_assignments (w : world) : list (pystr * option pystr) :=
  [(py "OPENAI_API_KEY", mjoin (llm_config_of w !! py "api_token"));
   (py "OPENAI_API_VERSION",
    default (Some (py "2024-05-01-preview")) (llm_config_of w !! py "api_version"));
   (py "OPENAI_API_BASE",
    default (Some (py "")) (llm_config_of w !! py "azure_endpoint"));
   (py "OPENAI_API_TYPE", Some (py "azure"))].

(** The error of the first assignment that is refused, if any is. *)
Fixpoint first_refused (l : list (pystr * option pystr)) : option exn :=
  match l with
  | [] => None
  | (k, v) :: rest =>
      match assign_error v with
      | Some e => Some e
      | None => first_refused rest
      end
  end.

(** The environment after the assignments, as far as they get. *)
Fixpoint assigned (l : list (pystr * option pystr)) (env : gmap pystr pystr)
  : gmap pystr pystr :=
  match l with
  | [] => env
  | (k, v) :: rest =>
      match v, assign_error v with
      | Some x, None => assigned rest (<[k := x]> env)
      | _, _ => env
      end
  end.

(** The configuration file exists, parses, names the azure provider and
    carries a token. *)
Definition azure_guard (w : world) : bool :=
  path_exists w config_path
  && match read_config w with
     | Ok _ => azure_configured (llm_config_of w)
     | Raise _ => false
     end.

Definition azure_first : embeddings :=
  AzureOpenAIEmbeddings (Some (py "text-embedding-ada-002")).

(** The guard holds and the environment accepted every assignment, so
    that the enterprise constructors are reached. *)
Definition azure_ready (w : world) : bool :=
  azure_guard w
  && match first_refused (azure_assignments w) with
     | None => true
     | Some _ => false
     end.

Definition azure_second (w : world) : embeddings :=
  AzureOpenAIEmbeddings (mjoin (llm_config_of w !! py "azure_deployment")).

Definition common_ladder : list embeddings :=
  [HuggingFaceEmbeddings DEFAULT_EMBEDDING_MODEL;
   OpenAIEmbeddings (py "text-embedding-ada-002")].

Definition stub_embeddings : embeddings := FakeEmbeddings 384.

Definition ladder (w : world) : list embeddings :=
  (if azure_ready w then [azure_first; azure_second w] else []) ++ common_ladder.

(** The process environment once the enterprise branch has set what it
    could of its variables. *)
Definition azure_environ (w : world) (env : gmap pystr pystr) : gmap pystr pystr :=
  if azure_guard w then assigned (azure_assignments w) env else env.

(** The ["input"] entry of the body of [/rag], an empty object when
    there is none. *)
Definition input_of (input_data : gmap pystr json) : json :=
  default (JObj ∅) (input_data !! py "input").

(** The state after further constructions were attempted. *)
Definition add_trace (s : state) (evs : list event) : state :=
  {| environ := environ s; trace := trace s ++ evs |}.


(** ** Concrete worlds

    A family of small worlds to evaluate the code on: [config] is the
    ["llm_config"] object of the configuration file ([None]: no file),
    [index] the documents of the persisted index ([None]: no index), and
    the two flags say whether local pipelines and remote clients can be
    constructed. *)

Module Scenario.

Definition boom : exn := PyError "OSError" "model not found".

(** A pipeline that continues every prompt by naming its model. *)
Definition pipe_of (model : option pystr) : pipeline_fn :=
  λ prompt, Ok (prompt ++ py " Paris, says " ++ fmt model).

Definition mk_world (config : option (gmap pystr (option pystr)))
    (index : option (list document)) (local_ok remote_ok : bool) : world := {|
  path_exists p :=
    (bool_decide (p = config_path) && bool_decide (is_Some config))
    || (bool_decide (p = vectorstore_path) && bool_decide (is_Some index));
  read_config := Ok config;
  cuda_is_available := false;
  transformers_pipeline task model device :=
    if local_ok then Ok (pipe_of model) else Raise boom;
  HuggingFaceHub_init repo_id token := if remote_ok then None else Some boom;
  AzureOpenAI_init env deployment model := if remote_ok then None else Some boom;
  embeddings_init env e := None;
  FAISS_load_local path e :=
    match index with
    | Some docs => Ok (λ q k, Ok (take k docs))
    | None => Raise boom
    end;
  hub_generate repo_id token prompt := Ok (py "Paris, says the hub.");
  azure_generate env deployment model prompt := Ok (py " Paris.");
  validation_error v := PyError "ValidationError" "1 validation error for QueryRequest"
|}.

Definition llm_config (provider model token : string) : gmap pystr (option pystr) :=
  <[py "llm_provider" := Some (py provider)]>
  (<[py "llm_model" := Some (py model)]>
  (<[py "api_token" := Some (py token)]> ∅)).

Definition s0 : state := {| environ := ∅; trace := [] |}.

Definition docs : list document :=
  [ {| page_content := "Paris is the capital of France." |};
    {| page_content := "France is in Europe." |} ].

(** No configuration file, no index. *)
Definition fresh : world := mk_world None None true true.

(** An index has been ingested; still no configuration file. *)
Definition ingested : world := mk_world None (Some docs) true true.

(** An index and a configuration that names a local model. *)
Definition serving (model : string) : world :=
  mk_world (Some (llm_config "local" model "")) (Some docs) true true.

Definition capital : pystr := "What is the capital of France?".


(** [hf_free] without a token, asking for the gated model. *)
Definition hf_gated : world :=
  mk_world (Some (llm_config "hf_free" "mistralai/Mixtral-8x7B-Instruct-v0.1" ""))
    None true true.



Definition azure_config : gmap pystr (option pystr) :=
  <[py "azure_endpoint" := Some (py "https://example.openai.azure.com")]>
  (<[py "azure_deployment" := Some (py "chat")]>
  (<[py "api_version" := Some (py "2023-12-01-preview")]>
  (llm_config "azure" "gpt-4" "key"))).



(** [azure] with a token, the client failing to construct. *)
Definition azure_down : world :=
  mk_world (Some azure_config) None true false.

(** The same world with no embedding backend reachable. *)
Definition no_embeddings (w : world) : world := {|
  path_exists := path_exists w;
  read_config := read_config w;
  cuda_is_available := cuda_is_available w;
  transformers_pipeline := transformers_pipeline w;
  HuggingFaceHub_init := HuggingFaceHub_init w;
  AzureOpenAI_init := AzureOpenAI_init w;
  embeddings_init env e := Some boom;
  FAISS_load_local := FAISS_load_local w;
  hub_generate := hub_generate w;
  azure_generate := azure_generate w;
  validation_error := validation_error w
|}.


End Scenario.

(** ** The rest of the two modules *)

(** What [get_embeddings] returns from state [s], and the state it
    leaves. *)
Definition resolved_embeddings (w : world) (s : state) : embeddings :=
  snd (first_success (embeddings_init w (azure_environ w (environ s)))
         (ladder w) stub_embeddings).

Definition after_embeddings (w : world) (s : state) : state :=
  {| environ := azure_environ w (environ s);
     trace := trace s ++ map EvEmbeddings
                (fst (first_success (embeddings_init w (azure_environ w (environ s)))
                        (ladder w) stub_embeddings)) |}.

(** How often a trace loads an index from disk. *)
Definition is_load (ev : event) : bool :=
  match ev with
  | EvLoadLocal _ => true
  | _ => false
  end.

Definition loads (t : list event) : nat := length (filter (λ ev, is_load ev = true) t).

Section EmptyStore.
Variable w : world.
(** [FAISS.from_texts(texts, embeddings)] *)
Variable FAISS_from_texts : list pystr → embeddings → result vectorstore.

(** [create_empty_vectorstore()] of utils/vectorstore.py. *)
Definition create_empty_vectorstore : M vectorstore :=
  embeddings ← get_embeddings w;
  lift (FAISS_from_texts [py "This is a placeholder document."] embeddings).

End EmptyStore.



(** ** frontend/src/components/QueryInterface.jsx

    A JavaScript string is a sequence of UTF-16 code units; [startsWith],
    [includes] and [split] with a non-empty separator work on it as the
    functions above do. *)

Module QueryInterface.

(** [a || d] for a string [a] that may be undefined. *)
Definition or_else (a : option pystr) (d : pystr) : pystr :=
  match a with
  | Some (c :: a') => c :: a'
  | _ => d
  end.

(** The two fields the handlers derive from [searchOption]. *)
Definition storageType (searchOption : pystr) : pystr :=
  if startswith "google_drive_" searchOption then py "google_drive" else py "local".

Definition searchMethod (searchOption : pystr) : pystr :=
  if contains "hybrid" searchOption then py "hybrid"
  else if contains "reranking" searchOption then py "reranking"
  else py "semantic".

(** [onChange] of the "Local Storage" radio button. *)
Definition select_local (searchOption : pystr) : pystr :=
  let method := or_else (split "_" searchOption !! 1%nat) "semantic" in
  py "local_" ++ method.

(** [onChange] of the "Google Drive" radio button. *)
Definition select_google_drive (searchOption : pystr) : pystr :=
  let method := or_else (split "_" searchOption !! 2%nat) "semantic" in
  py "google_drive_" ++ method.

(** [onChange] of the three search-method radio buttons. *)
Definition select_method (method searchOption : pystr) : pystr :=
  let prefix := if startswith "google_drive_" searchOption
                then py "google_drive_" else py "local_" in
  prefix ++ method.

Definition methods : list pystr := [py "semantic"; py "hybrid"; py "reranking"].

(** [checked] of a search-method radio button. *)
Definition method_checked (method searchOption : pystr) : bool :=
  contains method searchOption.

(** The values [searchOption] can take: its initial value and what the
    five [onChange] handlers make of a value. *)
Inductive reachable : pystr → Prop :=
| reach_initial : reachable (py "local_semantic")
| reach_local so : reachable so → reachable (select_local so)
| reach_google_drive so : reachable so → reachable (select_google_drive so)
| reach_method m so : m ∈ methods → reachable so → reachable (select_method m so).

(** The six values the form is meant to take, and a seventh. *)
Definition states : list pystr :=
  [py "local_semantic"; py "local_hybrid"; py "local_reranking";
   py "google_drive_semantic"; py "google_drive_hybrid"; py "google_drive_reranking";
   py "local_drive"].

(** The component's state, with the three setters it receives from
    [App] as the fields [app_answer], [app_isLoading] and [app_error]. *)
Record ui := {
  query_text : pystr;
  shown_sources : list pystr;
  showSources : bool;
  localAnswer : pystr;
  isLoading : bool;
  error : pystr;
  searchOption : pystr;
  app_answer : pystr;
  app_isLoading : bool;
  app_error : pystr
}.

(** How the promise of [axios.post] settles: with the body of a 2xx
    response, or with an error carrying [err.response?.data?.message] and
    [err.message]. *)
Inductive settled :=
| Resolved (data : response)
| Rejected (response_message err_message : option pystr).

(** [handleSubmit], from the click to the end of [finally]. *)
Definition handleSubmit (st : ui) (r : settled) : ui :=
  match r with
  | Resolved data =>
      {| query_text := query_text st;
         shown_sources := match sources data with
                          | Some l => l
                          | None => []
                          end;
         showSources := showSources st;
         localAnswer := or_else (answer data) "";
         isLoading := false;
         error := "";
         searchOption := searchOption st;
         app_answer := or_else (answer data) "";
         app_isLoading := false;
         app_error := app_error st |}
  | Rejected response_message err_message =>
      let msg := or_else response_message
                   (or_else err_message "Failed to get response") in
      {| query_text := query_text st;
         shown_sources := [];
         showSources := showSources st;
         localAnswer := localAnswer st;
         isLoading := false;
         error := msg;
         searchOption := searchOption st;
         app_answer := "";
         app_isLoading := false;
         app_error := msg |}
  end.

(** The body [handleSubmit] posts, as [QueryRequest] reads it: the model
    declares [question] and [include_sources] only. *)
Definition request_of (st : ui) : QueryRequest :=
  {| question := query_text st; include_sources := showSources st |}.

(** What the answer column renders. *)
Inductive answer_view :=
| Spinner
| AnswerText (text : pystr)
| Placeholder.

Definition answer_panel (st : ui) : answer_view :=
  if isLoading st then Spinner
  else match localAnswer st with
       | _ :: _ => AnswerText (localAnswer st)
       | [] => Placeholder
       end.

(** The error box under the two columns, when it is rendered. *)
Definition error_box (st : ui) : option pystr :=
  match error st with
  | _ :: _ => Some (error st)
  | [] => None
  end.

End QueryInterface.

(** ** frontend/src/components/DataSourceConfig.jsx *)

Module DataSourceConfig.

(** The [value]s of the options of the provider [select]. *)
Definition provider_options : list pystr :=
  [py "local"; py "hf_free"; py "hf_paid"; py "azure"].

Section Submit.
(** The browser's [File] objects. *)
Variable File : Type.

Record form := {
  sourceType : pystr;
  mysqlConfig : json;
  urlConfig : json;
  googleConfig : json;
  llmConfig : json;
  files : list File
}.

(** The multipart form [handleSubmit] posts to [/ingest]:
    the ["config"] part before [JSON.stringify], the ["files"] parts, and
    the files the ["file_metadata"] part describes, when there is one. *)
Record ingest_form := {
  url : pystr;
  config : gmap pystr json;
  attached : list File;
  file_metadata : option (list File)
}.

(** [handleFileChange] *)
Definition handleFileChange (st : form) (selected : list File) : form :=
  {| sourceType := sourceType st;
     mysqlConfig := mysqlConfig st; urlConfig := urlConfig st;
     googleConfig := googleConfig st; llmConfig := llmConfig st;
     files := take 5 selected |}.

(** The request part of [handleSubmit]. *)
Definition handleSubmit (st : form) : ingest_form :=
  let configData : gmap pystr json :=
    <[py "llm_config" := llmConfig st]>
    (<[py "sourceType" := JStr (sourceType st)]> ∅) in
  let configData :=
    if bool_decide (sourceType st = py "mysql")
    then <[py "mysql_config" := mysqlConfig st]> configData else configData in
  let configData :=
    if bool_decide (sourceType st = py "url")
    then <[py "url_config" := urlConfig st]> configData else configData in
  let configData :=
    if bool_decide (sourceType st = py "google")
    then <[py "google_config" := googleConfig st]> configData else configData in
  {| url := "http://localhost:8000/ingest";
     config := configData;
     attached := if bool_decide (sourceType st = py "file") then files st else [];
     file_metadata := if bool_decide (sourceType st = py "file")
                      then Some (files st) else None |}.

End Submit.

End DataSourceConfig.

(** ** The settings form with a choice of storage

    The variant of the [DataSourceConfig] component that also lets the
    user choose where the vector store is kept, and saves the LLM settings
    through an endpoint of their own. *)

Module DataSourceConfigStorage.

(** The [value]s of the options of the provider [select]. *)
Definition provider_options : list pystr :=
  [py "local"; py "openai"; py "anthropic"; py "azure"; py "huggingface"].

(** JavaScript's truth value of a decoded JSON value that may be
    undefined. *)
Definition js_truthy (v : option json) : bool :=
  match v with
  | None | Some JNull => false
  | Some (JBool b) => b
  | Some (JInt z) => negb (z =? 0)%Z
  | Some (JFloat (S754_zero _)) | Some (JFloat S754_nan) => false
  | Some (JFloat _) => true
  | Some (JStr s) => negb (Nat.eqb (length s) 0)
  | Some (JArr _) | Some (JObj _) => true
  end.

Section Submit.
(** The browser's [File] objects. *)
Variable File : Type.

Record form := {
  sourceType : pystr;
  storageConfig : gmap pystr json;
  mysqlConfig : json;
  urlConfig : json;
  googleConfig : json;
  llmConfig : json;
  googleAuthStatus : option (gmap pystr json);
  files : list File
}.

(** What [handleSubmit] sends, if anything. *)
Inductive sent :=
| NotSent (error : pystr)
| PostJson (url : pystr) (body : gmap pystr json)
| PostForm (url : pystr) (attached : list File) (config : gmap pystr json).

(** Google Drive storage is selected and there is no authenticated
    Google session. *)
Definition needs_google_login (st : form) : bool :=
  match storageConfig st !! py "type" with
  | Some (JStr type) => bool_decide (type = py "google_drive")
  | _ => false
  end
  && negb (match googleAuthStatus st with
           | Some status => js_truthy (status !! py "is_authenticated")
           | None => false
           end).

(** [handleFileChange] *)
Definition handleFileChange (st : form) (selected : list File) : form :=
  {| sourceType := sourceType st; storageConfig := storageConfig st;
     mysqlConfig := mysqlConfig st; urlConfig := urlConfig st;
     googleConfig := googleConfig st; llmConfig := llmConfig st;
     googleAuthStatus := googleAuthStatus st;
     files := take 5 selected |}.

(** The request part of [handleSubmit]. *)
Definition handleSubmit (st : form) : sent :=
  let configObject : gmap pystr json :=
    <[py "storage_config" := JObj (storageConfig st)]>
    (<[py "sourceType" := JStr (sourceType st)]> ∅) in
  let configObject :=
    if bool_decide (sourceType st = py "mysql")
    then <[py "mysql_config" := mysqlConfig st]> configObject
    else if bool_decide (sourceType st = py "url")
    then <[py "url_config" := urlConfig st]> configObject
    else if bool_decide (sourceType st = py "google")
    then <[py "google_config" := googleConfig st]> configObject
    else if bool_decide (sourceType st = py "llm")
    then <[py "llm_config" := llmConfig st]> configObject
    else configObject in
  if match storageConfig st !! py "type" with
     | Some (JStr type) => bool_decide (type = py "google_drive")
     | _ => false
     end
     && negb (match googleAuthStatus st with
              | Some status => js_truthy (status !! py "is_authenticated")
              | None => false
              end)
  then NotSent "You must be authenticated with Google to use Google Drive storage."
  else if bool_decide (sourceType st = py "llm")
  then PostJson "http://localhost:8000/save-llm-settings" configObject
  else
    PostForm "http://localhost:8000/ingest"
      (if bool_decide (sourceType st = py "file") then files st else [])
      (<[py "llm_config" := llmConfig st]> configObject).

End Submit.

End DataSourceConfigStorage.

(** * Properties *)

(** ** Strings *)

Section StringFacts.
Implicit Types s p sep pre post : pystr.

Lemma startswith_spec p s : startswith p s = true ↔ ∃ t, s = p ++ t.
Proof.
  revert s. induction p as [|a p IH]; intros s; simpl.
  - split; [intros _; by exists s | done].
  - destruct s as [|b s]; [split; [done | intros [t Ht]; discriminate] |].
    rewrite andb_true_iff, N.eqb_eq, IH. split.
    + intros [-> [t ->]]. by exists t.
    + intros [t Ht]. injection Ht as -> ->. split; [done | by exists t].
Qed.

Lemma contains_spec sep s : contains sep s = true ↔ occurs sep s.
Proof.
  unfold occurs, occurs_at. induction s as [|c s IH].
  - simpl. rewrite orb_false_r, startswith_spec. split.
    + intros [t Ht]. by exists [], t.
    + intros (pre & post & H). destruct pre; [by exists post |]. discriminate.
  - cbn [contains]. rewrite orb_true_iff, startswith_spec, IH. split.
    + intros [[t Ht] | (pre & post & ->)].
      * by exists [], t.
      * by exists (c :: pre), post.
    + intros (pre & post & H). destruct pre as [|c' pre].
      * left. by exists post.
      * right. injection H as _ ->. by exists pre, post.
Qed.

Lemma contains_false sep s : contains sep s = false ↔ ¬ occurs sep s.
Proof. rewrite <- contains_spec. by destruct (contains sep s). Qed.

Lemma find_None sep s : find sep s = None → contains sep s = false.
Proof.
  induction s as [|c s IH]; cbn [find contains].
  - by destruct (startswith sep []).
  - destruct (startswith sep (c :: s)); [done |]. simpl.
    destruct (find sep s); [done |]. auto.
Qed.

Lemma find_Some sep s i :
  find sep s = Some i → s = take i s ++ sep ++ drop (i + length sep) s.
Proof.
  revert i. induction s as [|c s IH]; intros i; cbn [find].
  - destruct (startswith sep []) eqn:E; [|done].
    intros [= <-]. apply startswith_spec in E as [t Ht].
    destruct sep; [done | discriminate].
  - destruct (startswith sep (c :: s)) eqn:E.
    + intros [= <-]. apply startswith_spec in E as [t Ht].
      rewrite Ht at 1. simpl. f_equal.
      rewrite Ht, drop_app_length. done.
    + destruct (find sep s) as [j|] eqn:F; [|done].
      intros [= <-]. simpl. f_equal. by apply IH.
Qed.

Lemma split_loop_nonempty n sep s : split_loop n sep s ≠ [].
Proof. destruct n; simpl; [done |]. by destruct (find sep s). Qed.

Lemma last_cons_nonempty {A} (x : A) (l : list A) d :
  l ≠ [] → List.last (x :: l) d = List.last l d.
Proof. by destruct l. Qed.

(** Behind an occurrence of an unbordered separator, every later
    occurrence lies wholly in the rest. *)
Lemma later_occurrence sep p rest pre' post' :
  unbordered sep →
  p ++ sep ++ rest = pre' ++ sep ++ post' →
  (length p < length pre')%nat →
  ∃ u, pre' = p ++ sep ++ u ∧ rest = u ++ sep ++ post'.
Proof.
  intros Hub Heq Hlt.
  apply app_eq_app in Heq as [l [[-> Hl] | [-> Hl]]].
  { rewrite length_app in Hlt. lia. }
  destruct (decide (length l < length sep)%nat) as [Hshort | Hlong].
  - exfalso. apply (Hub l post' rest); [|done|done].
    intros ->. rewrite length_app in Hlt. simpl in Hlt. lia.
  - apply app_eq_app in Hl as [l' [[Hsep Hl'] | [-> Hl']]].
    + assert (l' = []) as ->.
      { destruct l'; [done |]. rewrite Hsep, length_app in Hlong. simpl in Hlong. lia. }
      rewrite app_nil_r in Hsep. subst l. exists []. by rewrite app_nil_r, Hl'.
    + exists l'. by rewrite Hl'.
Qed.

Lemma split_loop_last sep :
  sep ≠ [] → unbordered sep →
  ∀ n s, (length s ≤ n)%nat →
    (contains sep s = false → split_loop n sep s = [s]) ∧
    (contains sep s = true →
       ∃ pre, last_occurrence sep s pre (List.last (split_loop n sep s) [])).
Proof.
  intros Hne Hub. induction n as [|n IH]; intros s Hlen.
  - destruct s; [|simpl in Hlen; lia]. split; [done |].
    intros H. apply contains_spec in H as (pre & post & H).
    destruct pre, sep; done.
  - cbn [split_loop]. destruct (find sep s) as [i|] eqn:F.
    + pose proof (find_Some _ _ _ F) as Hs.
      set (p := take i s) in *. set (rest := drop (i + length sep) s) in *.
      assert (contains sep s = true) as Hc.
      { apply contains_spec. by exists p, rest. }
      split; [by rewrite Hc |]. intros _.
      rewrite last_cons_nonempty by apply split_loop_nonempty.
      assert (length rest ≤ n)%nat as Hrest.
      { subst rest. rewrite length_drop. destruct sep; [done |]. simpl. lia. }
      destruct (IH rest Hrest) as [IHf IHt].
      destruct (contains sep rest) eqn:Hcr.
      * destruct (IHt eq_refl) as (pre0 & Hocc & Hmax).
        exists (p ++ sep ++ pre0). split.
        { unfold occurs_at in *. rewrite Hs at 1. rewrite Hocc at 1.
          by rewrite <- !app_assoc. }
        intros pre' post' H'. unfold occurs_at in H'.
        destruct (decide (length p < length pre')%nat) as [Hlt | Hge];
          [| rewrite length_app; lia].
        rewrite Hs in H'.
        destruct (later_occurrence _ _ _ _ _ Hub H' Hlt) as (u & -> & Hu).
        specialize (Hmax u post' Hu). rewrite !length_app. lia.
      * rewrite (IHf eq_refl). simpl. exists p. split; [done |].
        intros pre' post' H'. unfold occurs_at in H'.
        destruct (decide (length p < length pre')%nat) as [Hlt | Hge]; [| lia].
        rewrite Hs in H'.
        destruct (later_occurrence _ _ _ _ _ Hub H' Hlt) as (u & -> & Hu).
        apply contains_false in Hcr. destruct Hcr. by exists u, post'.
    + split; [done |]. intros H. by rewrite (find_None _ _ F) in H.
Qed.

End StringFacts.

Section StripFacts.
Implicit Types s : pystr.

Lemma lstrip_spec s :
  ∃ l, s = l ++ lstrip s ∧ all_space l ∧ head_not_space (lstrip s).
Proof.
  induction s as [|c s (l & Hs & Hl & Hh)]; simpl.
  - exists []. repeat split; [constructor | by intros ??].
  - destruct (isspace c) eqn:E.
    + exists (c :: l). repeat split; [by rewrite Hs at 1 | by constructor | done].
    + exists []. repeat split; [constructor |]. intros c' s' [= <- <-]. done.
Qed.

Lemma rstrip_spec s :
  ∃ r, s = rstrip s ++ r ∧ all_space r ∧ last_not_space (rstrip s).
Proof.
  unfold rstrip. destruct (lstrip_spec (rev s)) as (l & Hs & Hl & Hh).
  exists (rev l). repeat split.
  - rewrite <- rev_app_distr, <- Hs. by rewrite rev_involutive.
  - unfold all_space in *. by apply Forall_rev.
  - intros c s' H. apply (Hh c (rev s')).
    apply (f_equal (@rev N)) in H. rewrite rev_involutive in H.
    by rewrite H, rev_app_distr.
Qed.

(** [strip] cuts white space, and only white space, off both ends. *)
Lemma strip_spec s :
  ∃ l r, s = l ++ strip s ++ r ∧ all_space l ∧ all_space r ∧ trimmed (strip s).
Proof.
  unfold strip. destruct (lstrip_spec s) as (l & Hs & Hl & Hh).
  destruct (rstrip_spec (lstrip s)) as (r & Ht & Hr & Hlast).
  exists l, r. repeat split; [by rewrite <- Ht | done | done | | done].
  intros c s' H. rewrite H in Ht. by apply (Hh c (s' ++ r)).
Qed.

End StripFacts.

(** ** The answer cue *)

Lemma marker_unbordered : unbordered answer_marker.
Proof.
  intros u v t Hne Hlen H.
  do 7 (destruct u as [|? u]; [try done; discriminate H |]).
  simpl in Hlen. vm_compute in Hlen. lia.
Qed.

Lemma split_marker_last raw :
  occurs answer_marker raw →
  ∃ pre, last_occurrence answer_marker raw pre
           (List.last (split answer_marker raw) []).
Proof.
  intros H. apply contains_spec in H.
  by apply (split_loop_last answer_marker ltac:(done) marker_unbordered
              (length raw) raw (le_n _)).
Qed.

(** C3 (as amended): when the raw output contains the cue ["Answer:"], the
    cleaning step of [query] returns what follows the last occurrence of
    the cue, stripped of surrounding white space; when it does not, the raw
    output is returned as it is, not stripped. *)
Theorem extract_answer_spec (raw : pystr) :
  (occurs answer_marker raw →
     ∃ pre post, last_occurrence answer_marker raw pre post
                 ∧ extract_answer raw = strip post)
  ∧ (¬ occurs answer_marker raw → extract_answer raw = raw).
Proof.
  unfold extract_answer. split.
  - intros H. destruct (split_marker_last raw H) as (pre & Hlast).
    apply contains_spec in H. rewrite H. by eexists _, _.
  - intros H. apply contains_false in H. by rewrite H.
Qed.

Lemma extract_answer_spec_witness :
  (∃ pre post,
      last_occurrence answer_marker (py "Context..." ++ [10] ++ py "Answer: Paris.") pre post
      ∧ extract_answer (py "Context..." ++ [10] ++ py "Answer: Paris.") = strip post)
  ∧ extract_answer (py "Paris.") = py "Paris.".
Proof.
  split.
  - apply (proj1 (extract_answer_spec _)).
    exists (py "Context..." ++ [10]), (py " Paris."). reflexivity.
  - apply (proj2 (extract_answer_spec _)).
    apply contains_false. reflexivity.
Defined.

(** C3, as stated, fails: without the cue the raw output keeps its
    surrounding white space. *)
Lemma extract_answer_not_trimmed :
  ¬ occurs answer_marker (py " Paris.")
  ∧ extract_answer (py " Paris.") ≠ strip (py " Paris.").
Proof.
  split; [apply contains_false; reflexivity | discriminate].
Qed.

Example extract_answer_marker :
  extract_answer (py "Context..." ++ [10] ++ py "Answer: Paris.") = py "Paris.".
Proof. reflexivity. Qed.

(** ** The pipeline wrapper *)

(** C8 (as amended): when the pipeline returns the prompt followed by a
    continuation, the wrapper (not a T5 model) returns the text behind the
    prompt's length, stripped of surrounding white space; for a T5 model,
    whose pipeline returns the answer alone, it returns that answer
    stripped of surrounding white space. *)
Theorem HFWrapper_call_spec (pipeline : pipeline_fn) (prompt : pystr) :
  (∀ continuation, pipeline prompt = Ok (prompt ++ continuation) →
     HFWrapper_call pipeline false prompt = Ok (strip continuation))
  ∧ (∀ text, pipeline prompt = Ok text →
     HFWrapper_call pipeline true prompt = Ok (strip text)).
Proof.
  unfold HFWrapper_call. split.
  - intros continuation ->. by rewrite drop_app_length.
  - by intros text ->.
Qed.

Lemma HFWrapper_call_spec_witness :
  HFWrapper_call (λ p, Ok (p ++ py " Paris. ")) false (py "Q?") = Ok (strip (py " Paris. "))
  ∧ HFWrapper_call (λ _, Ok (py "Paris.")) true (py "Q?") = Ok (strip (py "Paris.")).
Proof.
  split.
  - apply (proj1 (HFWrapper_call_spec (λ p, Ok (p ++ py " Paris. ")) (py "Q?"))).
    reflexivity.
  - apply (proj2 (HFWrapper_call_spec (λ _, Ok (py "Paris.")) (py "Q?"))).
    reflexivity.
Defined.

(** C8, as stated, fails: a direct answer is not returned verbatim, and
    the continuation is not returned as generated, when either carries
    surrounding white space. *)
Lemma HFWrapper_call_not_verbatim :
  HFWrapper_call (λ _, Ok (py " Paris.")) true (py "Q?") ≠ Ok (py " Paris.")
  ∧ HFWrapper_call (λ p, Ok (p ++ py " Paris.")) false (py "Q?") ≠ Ok (py " Paris.").
Proof. split; discriminate. Qed.

(** ** Running the monad *)

Ltac run :=
  unfold mbind, mret, M_bind, M_ret, try_except, lift, raise, log, get_environ,
    setenv in *; simpl in *.

Lemma add_trace_app s evs evs' :
  add_trace (add_trace s evs) evs' = add_trace s (evs ++ evs').
Proof. unfold add_trace. simpl. by rewrite app_assoc. Qed.

Lemma log_add_trace ev s : log ev s = (Ok tt, add_trace s [ev]).
Proof. done. Qed.

(** ** The generation-backend resolver *)

Section GetLlm.
Variable w : world.
Variable global_config : gmap pystr (option pystr).
Local Abbreviation provider := (provider w global_config).
Local Abbreviation model := (model w global_config).
Local Abbreviation token := (token w global_config).
Local Abbreviation resolve := (get_llm w global_config).










End GetLlm.

(** *** The resolver on concrete worlds *)





(** ** The embedding resolver *)

Section FirstSuccess.
Variable init : embeddings → option exn.
Variable stub : embeddings.


Lemma first_success_ok a rest :
  init a = None → first_success init (a :: rest) stub = ([a], a).
Proof. simpl. by intros ->. Qed.

Lemma first_success_fail a rest err :
  init a = Some err →
  first_success init (a :: rest) stub
  = (a :: fst (first_success init rest stub), snd (first_success init rest stub)).
Proof. simpl. intros ->. by destruct (first_success init rest stub). Qed.

End FirstSuccess.

Section GetEmbeddings.
Variable w : world.

Lemma new_embeddings_run e s :
  new_embeddings w e s =
    match embeddings_init w (environ s) e with
    | None => (Ok e, add_trace s [EvEmbeddings e])
    | Some err => (Raise err, add_trace s [EvEmbeddings e])
    end.
Proof.
  unfold new_embeddings. run. by destruct (embeddings_init _ _ _).
Qed.

Lemma new_fake_embeddings_run size s :
  new_fake_embeddings size s =
    (Ok (FakeEmbeddings size), add_trace s [EvEmbeddings (FakeEmbeddings size)]).
Proof. done. Qed.

Lemma putenv_azure : putenv_error (py "azure") = None.
Proof. reflexivity. Qed.

(** What the environment refuses: the encoding is checked before the
    NUL, and a run of surrogates is reported from its first member that
    cannot be escaped. *)
Example putenv_error_cases :
  putenv_error (py "https://example.openai.azure.com") = None
  ∧ putenv_error [] = None
  ∧ putenv_error [56448; 56575; 97; 233; 65536] = None
  ∧ putenv_error [107; 0; 121] = Some (PyError "ValueError" "embedded null byte")
  ∧ putenv_error [0; 55296]
    = Some (PyError "UnicodeEncodeError"
              "'utf-8' codec can't encode character '\ud800' in position 1: surrogates not allowed")
  ∧ putenv_error [97; 98; 99; 56464; 56465; 113; 55552; 55553; 55554]
    = Some (PyError "UnicodeEncodeError"
              "'utf-8' codec can't encode characters in position 6-8: surrogates not allowed").
Proof. repeat split; vm_compute; reflexivity. Qed.

(** The first [try] block, spelled out: the enterprise constructors are
    reached only when the guard holds and every assignment went through;
    otherwise the block is left with what was assigned so far. *)
Lemma embeddings_from_config_run s :
  let s1 := {| environ := azure_environ w (environ s); trace := trace s |} in
  embeddings_from_config w s =
    if azure_ready w then
      match embeddings_init w (environ s1) (azure_first) with
      | None => (Ok (Some azure_first), add_trace s1 [EvEmbeddings azure_first])
      | Some _ =>
          match embeddings_init w (environ s1) (azure_second w) with
          | None => (Ok (Some (azure_second w)),
                     add_trace s1 [EvEmbeddings azure_first; EvEmbeddings (azure_second w)])
          | Some _ => (Ok None,
                     add_trace s1 [EvEmbeddings azure_first; EvEmbeddings (azure_second w)])
          end
      end
    else (Ok None, s1).
Proof.
  destruct s as [env tr].
  unfold embeddings_from_config, azure_ready, azure_environ, azure_guard,
    azure_assignments, azure_second, azure_first, llm_config_of.
  cbn [environ trace].
  destruct (path_exists w config_path); [| reflexivity].
  destruct (read_config w) as [[c|]|]; [| reflexivity | reflexivity].
  cbn [andb]. unfold try_except at 1. unfold mbind, M_bind, lift, mret, M_ret.
  change (default ∅ (Some c)) with c.
  destruct (azure_configured c) eqn:Ha; [| reflexivity]. cbn [andb].
  unfold setenv at 1. cbn [first_refused assigned assign_error].
  destruct (mjoin (c !! py "api_token")) as [x1|];
    cbn [first_refused assigned assign_error]; [| reflexivity].
  destruct (putenv_error x1); [reflexivity |].
  unfold setenv at 1. cbn [environ trace].
  destruct (default (Some (py "2024-05-01-preview")) (c !! py "api_version")) as [x2|];
    cbn [first_refused assigned assign_error]; [| reflexivity].
  destruct (putenv_error x2); [reflexivity |].
  unfold setenv at 1. cbn [environ trace].
  destruct (default (Some (py "")) (c !! py "azure_endpoint")) as [x3|];
    cbn [first_refused assigned assign_error]; [| reflexivity].
  destruct (putenv_error x3); [reflexivity |].
  unfold setenv at 1. rewrite !putenv_azure. cbn [environ trace].
  unfold try_except. rewrite !new_embeddings_run. cbn [environ trace].
  destruct (embeddings_init _ _ (AzureOpenAIEmbeddings (Some _))); [| done].
  rewrite new_embeddings_run. cbn [environ trace add_trace].
  destruct (embeddings_init _ _ _); by rewrite add_trace_app.
Qed.

Lemma get_embeddings_tail s :
  (r ← try_except
         (e ← new_embeddings w (HuggingFaceEmbeddings DEFAULT_EMBEDDING_MODEL);
          mret (Some e))
         (λ e, mret None);
   match r with
   | Some e => mret e
   | None =>
       r ← try_except
             (e ← new_embeddings w (OpenAIEmbeddings "text-embedding-ada-002");
              mret (Some e))
             (λ e, mret None);
       match r with
       | Some e => mret e
       | None => new_fake_embeddings 384
       end
   end) s
  = (Ok (snd (first_success (embeddings_init w (environ s)) common_ladder stub_embeddings)),
     add_trace s (map EvEmbeddings
       (fst (first_success (embeddings_init w (environ s)) common_ladder stub_embeddings)))).
Proof.
  unfold common_ladder, stub_embeddings. simpl.
  unfold mbind, M_bind, try_except, mret, M_ret.
  rewrite new_embeddings_run.
  destruct (embeddings_init w (environ s) (HuggingFaceEmbeddings _)); [| done].
  rewrite new_embeddings_run. simpl.
  destruct (embeddings_init w (environ s) (OpenAIEmbeddings _)); simpl.
  - rewrite new_fake_embeddings_run. by rewrite !add_trace_app.
  - by rewrite add_trace_app.
Qed.

(** The resolver runs the ladder. *)
Lemma get_embeddings_run s :
  let env := azure_environ w (environ s) in
  let run := first_success (embeddings_init w env) (ladder w) stub_embeddings in
  get_embeddings w s =
    (Ok (snd run), {| environ := env; trace := trace s ++ map EvEmbeddings (fst run) |}).
Proof.
  unfold get_embeddings, ladder. unfold mbind at 1. unfold M_bind at 1.
  rewrite embeddings_from_config_run. cbn zeta.
  set (s1 := {| environ := _; trace := _ |}).
  change (environ s1) with (azure_environ w (environ s)).
  destruct (azure_ready w) eqn:Hg.
  - cbn [app].
    destruct (embeddings_init w _ azure_first) eqn:E1.
    2:{ by rewrite (first_success_ok _ _ _ _ E1). }
    rewrite (first_success_fail _ _ _ _ _ E1).
    destruct (embeddings_init w _ (azure_second w)) eqn:E2.
    2:{ by rewrite (first_success_ok _ _ _ _ E2). }
    rewrite (first_success_fail _ _ _ _ _ E2).
    rewrite get_embeddings_tail. cbn [fst snd].
    unfold add_trace. cbn [environ trace s1 map]. by rewrite <- app_assoc.
  - by rewrite get_embeddings_tail.
Qed.


End GetEmbeddings.


Example get_embeddings_first_success :
  get_embeddings Scenario.azure_down Scenario.s0
  = (Ok azure_first,
     {| environ := azure_environ Scenario.azure_down ∅;
        trace := [EvEmbeddings azure_first] |}).
Proof. vm_compute. reflexivity. Qed.

Example get_embeddings_last_resort :
  fst (get_embeddings (Scenario.no_embeddings Scenario.azure_down) Scenario.s0)
    = Ok (FakeEmbeddings 384)
  ∧ trace (snd (get_embeddings (Scenario.no_embeddings Scenario.azure_down) Scenario.s0))
    = map EvEmbeddings
        [AzureOpenAIEmbeddings (Some (py "text-embedding-ada-002"));
         AzureOpenAIEmbeddings (Some (py "chat"));
         HuggingFaceEmbeddings (py "sentence-transformers/all-MiniLM-L6-v2");
         OpenAIEmbeddings (py "text-embedding-ada-002");
         FakeEmbeddings 384].
Proof. split; vm_compute; reflexivity. Qed.

(** ** The endpoints *)

Section Endpoints.
Variable w : world.

Lemma get_retriever_absent s :
  path_exists w vectorstore_path = false → get_retriever w s = (Ok None, s).
Proof. unfold get_retriever. by intros ->. Qed.

(** The retriever loader catches whatever loading raises. *)
Lemma get_retriever_total s : ∃ r s', get_retriever w s = (Ok r, s').
Proof.
  unfold get_retriever. destruct (path_exists w vectorstore_path); simpl; [| eauto].
  unfold try_except.
  match goal with
  | |- ∃ r s', match ?body s with _ => _ end = _ =>
      destruct (body s) as [[r | e] s1]
  end; eauto.
Qed.

(** Every way through [query], spelled out. *)
Lemma query_run rag_chain request s :
  query w rag_chain request s =
    match get_retriever w s with
    | (Ok None, s1) =>
        (Ok (error_response
               "No vector store available. Please ingest documents first."), s1)
    | (Ok (Some _), s1) =>
        match chain_invoke w rag_chain (question request) with
        | Raise e => (Ok (error_response (str_exn e)), s1)
        | Ok raw_answer =>
            match get_retriever w s1 with
            | (Ok (Some retriever), s2) =>
                match get_relevant_documents retriever (question request) with
                | Ok docs =>
                    (Ok (if include_sources request
                         then set_sources (answer_response (extract_answer raw_answer))
                                (map page_content docs)
                         else answer_response (extract_answer raw_answer)), s2)
                | Raise e => (Ok (error_response (str_exn e)), s2)
                end
            | (Ok None, s2) =>
                (Ok (error_response
                       (str_exn (AttributeError "NoneType" "get_relevant_documents"))), s2)
            | (Raise e, s2) => (Ok (error_response (str_exn e)), s2)
            end
        end
    | (Raise e, s1) => (Ok (error_response (str_exn e)), s1)
    end.
Proof.
  unfold query, try_except, mbind, M_bind, lift, raise, mret, M_ret.
  destruct (get_retriever w s) as [[[r|]|e] s1]; try done.
  destruct (chain_invoke w rag_chain (question request)); [| done].
  destruct (get_retriever w s1) as [[[r2|]|e2] s2]; try done.
  destruct (get_relevant_documents r2 (question request)); [| done].
  by destruct (include_sources request).
Qed.

(** C5: with no index at the persisted path, [/query] does not raise and
    returns the handled error [{status: "error", message: ...}] telling the
    user to ingest documents first; and loading the index from a path that
    does not exist yields [None]. *)
Theorem query_no_index (rag_chain : chain) (request : QueryRequest)
    (path : pystr) (s : state) :
  (path_exists w vectorstore_path = false →
     query w rag_chain request s =
       (Ok {| answer := None; sources := None;
              status := Some (py "error");
              message := Some (py "No vector store available. Please ingest documents first.");
              output := None |}, s))
  ∧ (path_exists w path = false → load_vectorstore w path s = (Ok None, s)).
Proof.
  split; intros H.
  - by rewrite query_run, (get_retriever_absent s H).
  - unfold load_vectorstore. by rewrite H.
Qed.

(** C6: [/query] always returns a response; with [include_sources] false
    the response has no [sources] key, whatever was retrieved; with
    [include_sources] true an answer comes with [sources] holding exactly
    the texts of the documents the endpoint retrieved for the question, in
    the order the retriever ranked them. *)
Theorem query_sources (rag_chain : chain) (request : QueryRequest) (s : state) :
  ∃ resp s', query w rag_chain request s = (Ok resp, s')
    ∧ (include_sources request = false → sources resp = None)
    ∧ (include_sources request = true → is_Some (answer resp) →
         ∃ retriever docs,
           get_retriever w (snd (get_retriever w s)) = (Ok (Some retriever), s')
           ∧ get_relevant_documents retriever (question request) = Ok docs
           ∧ sources resp = Some (map page_content docs)).
Proof.
  rewrite query_run.
  destruct (get_retriever w s) as [[[r|]|e] s1]; simpl;
    try (eexists _, _; split; [done |]; split; [done | by intros _ [? [=]]]).
  destruct (chain_invoke w rag_chain (question request));
    try (eexists _, _; split; [done |]; split; [done | by intros _ [? [=]]]).
  destruct (get_retriever w s1) as [[[r2|]|e2] s2] eqn:Hr2;
    try (eexists _, _; split; [done |]; split; [done | by intros _ [? [=]]]).
  destruct (get_relevant_documents r2 (question request)) as [docs|] eqn:Hdocs;
    try (eexists _, _; split; [done |]; split; [done | by intros _ [? [=]]]).
  eexists _, _. split; [done |]. split.
  - by intros ->.
  - intros -> _. by exists r2, docs.
Qed.

End Endpoints.

Section Rag.
Variable w : world.

Lemma query_total rag_chain request s :
  ∃ resp s', query w rag_chain request s = (Ok resp, s').
Proof.
  rewrite query_run.
  destruct (get_retriever w s) as [[[r|]|e] s1]; eauto.
  destruct (chain_invoke w rag_chain (question request)); eauto.
  destruct (get_retriever w s1) as [[[r2|]|e2] s2]; eauto.
  destruct (get_relevant_documents r2 (question request)); eauto.
Qed.

Lemma rag_run rag_chain input_data s :
  rag w rag_chain input_data s =
    match json_get (input_of input_data) (py "question") (JStr (py "")) with
    | Raise e => (Ok (output_response (py "Error: " ++ str_exn e)), s)
    | Ok question =>
        if negb (json_truthy question)
        then (Ok (error_response (py "No question provided")), s)
        else
          match new_QueryRequest w question with
          | Raise e => (Ok (output_response (py "Error: " ++ str_exn e)), s)
          | Ok request =>
              match query w rag_chain request s with
              | (Ok result, s') =>
                  (Ok (output_response
                         match answer result with
                         | Some a => a
                         | None => py "Error: "
                                     ++ default (py "Unknown error") (message result)
                         end), s')
              | (Raise e, s') => (Ok (output_response (py "Error: " ++ str_exn e)), s')
              end
          end
    end.
Proof.
  unfold rag, input_of, try_except, mbind, M_bind, lift, mret, M_ret.
  destruct (json_get _ _ _) as [question|]; [| done].
  destruct (json_truthy question); [| done]. simpl.
  destruct (new_QueryRequest w question) as [request|]; [| done].
  destruct (query w rag_chain request s) as [[result|] s']; [| done].
  by destruct (answer result).
Qed.

(** C10 (as amended): [/rag] never raises.  When ["input"] is absent or
    an object, and its ["question"] is missing or empty (or any other
    false value), the endpoint returns
    [{status: "error", message: "No question provided"}]; when ["input"]
    is present and not an object, it returns an [output] reporting the
    failed lookup, beginning with ["Error:"]; for a non-empty question it
    returns an [output] holding the answer of the [/query] path or a
    string that begins with ["Error:"]. *)
Theorem rag_spec (rag_chain : chain) (input_data : gmap pystr json) (s : state) :
  ∃ resp s', rag w rag_chain input_data s = (Ok resp, s')
    ∧ (∀ m, input_of input_data = JObj m →
         json_truthy (default (JStr (py "")) (m !! py "question")) = false →
         resp = error_response (py "No question provided"))
    ∧ ((∀ m, input_of input_data ≠ JObj m) →
         resp = output_response
                  (py "Error: "
                   ++ str_exn (AttributeError (type_name (input_of input_data)) "get")))
    ∧ (∀ m q, input_of input_data = JObj m → m !! py "question" = Some q →
         json_truthy q = true →
         ∃ o, resp = output_response o
              ∧ ((∃ text result,
                     q = JStr text
                     ∧ query w rag_chain {| question := text; include_sources := false |} s
                       = (Ok result, s')
                     ∧ answer result = Some o)
                 ∨ startswith (py "Error:") o = true)).
Proof.
  rewrite rag_run.
  destruct (input_of input_data) as [| | | | |l|m] eqn:Hin;
    try (eexists _, _; split; [done |];
         split; [done |]; split; [done | intros m q [=]]).
  simpl. destruct (json_truthy (default (JStr (py "")) (m !! py "question"))) eqn:Ht; simpl.
  2:{ eexists _, _. split; [done |]. split; [done |]. split.
      - intros H. by destruct (H m).
      - intros ? q [= <-] Hq Hqt. rewrite Hq in Ht. simpl in Ht. congruence. }
  destruct (new_QueryRequest w _) as [request|e] eqn:Hreq.
  2:{ eexists _, _. split; [done |]. split; [intros ? [= <-]; congruence |]. split.
      - intros H. by destruct (H m).
      - intros ? q [= <-] Hq Hqt. eexists. split; [done |]. by right. }
  destruct (query_total rag_chain request s) as (result & s' & Hquery).
  rewrite Hquery.
  eexists _, _. split; [done |]. split; [intros ? [= <-]; congruence |]. split.
  - intros H. by destruct (H m).
  - intros ? q [= <-] Hq Hqt. eexists. split; [done |].
    rewrite Hq in Hreq. simpl in Hreq.
    destruct (answer result) as [a|] eqn:Ha; [left | by right].
    destruct q; try done. injection Hreq as <-. eauto.
Qed.

End Rag.

(** *** The endpoints on concrete worlds *)

Lemma query_no_index_witness :
  query Scenario.fresh (MessageChain (py "unused"))
      {| question := Scenario.capital; include_sources := true |} Scenario.s0
    = (Ok {| answer := None; sources := None;
             status := Some (py "error");
             message := Some (py "No vector store available. Please ingest documents first.");
             output := None |}, Scenario.s0)
  ∧ load_vectorstore Scenario.fresh (py "./elsewhere") Scenario.s0
    = (Ok None, Scenario.s0).
Proof.
  split.
  - apply (proj1 (query_no_index Scenario.fresh (MessageChain (py "unused"))
                    {| question := Scenario.capital; include_sources := true |}
                    (py "./elsewhere") Scenario.s0)).
    reflexivity.
  - apply (proj2 (query_no_index Scenario.fresh (MessageChain (py "unused"))
                    {| question := Scenario.capital; include_sources := true |}
                    (py "./elsewhere") Scenario.s0)).
    reflexivity.
Defined.

Example query_with_sources :
  fst (query (Scenario.serving "gpt2")
         (RagChain (as_retriever (λ q k, Ok (take k Scenario.docs)) 4)
                   (HFWrapper (Scenario.pipe_of (Some (py "gpt2"))) false))
         {| question := Scenario.capital; include_sources := true |} Scenario.s0)
  = Ok {| answer := Some (py "Paris, says gpt2");
          sources := Some [py "Paris is the capital of France."; py "France is in Europe."];
          status := None; message := None; output := None |}.
Proof. vm_compute. reflexivity. Qed.

Example query_without_sources :
  fst (query (Scenario.serving "gpt2")
         (RagChain (as_retriever (λ q k, Ok (take k Scenario.docs)) 4)
                   (HFWrapper (Scenario.pipe_of (Some (py "gpt2"))) false))
         {| question := Scenario.capital; include_sources := false |} Scenario.s0)
  = Ok {| answer := Some (py "Paris, says gpt2");
          sources := None;
          status := None; message := None; output := None |}.
Proof. vm_compute. reflexivity. Qed.

Lemma query_sources_witness :
  ∃ resp s',
    query (Scenario.serving "gpt2") (MessageChain (py "Paris."))
      {| question := Scenario.capital; include_sources := true |} Scenario.s0
    = (Ok resp, s')
    ∧ ∃ retriever docs,
        get_retriever (Scenario.serving "gpt2")
          (snd (get_retriever (Scenario.serving "gpt2") Scenario.s0))
        = (Ok (Some retriever), s')
        ∧ get_relevant_documents retriever Scenario.capital = Ok docs
        ∧ sources resp = Some (map page_content docs).
Proof.
  destruct (query_sources (Scenario.serving "gpt2") (MessageChain (py "Paris."))
              {| question := Scenario.capital; include_sources := true |}
              Scenario.s0) as (resp & s' & Hrun & _ & Hsources).
  exists resp, s'. split; [exact Hrun |].
  apply Hsources; [reflexivity |].
  apply (f_equal fst) in Hrun. vm_compute in Hrun.
  injection Hrun as <-. by eexists.
Defined.

Lemma rag_spec_witness :
  ∃ resp s',
    rag Scenario.fresh (MessageChain (py "unused"))
      (<[py "input" := JObj (<[py "question" := JStr (py "")]> ∅)]> ∅) Scenario.s0
    = (Ok resp, s')
    ∧ resp = error_response (py "No question provided").
Proof.
  destruct (rag_spec Scenario.fresh (MessageChain (py "unused"))
              (<[py "input" := JObj (<[py "question" := JStr (py "")]> ∅)]> ∅)
              Scenario.s0) as (resp & s' & Hrun & Hempty & _ & _).
  exists resp, s'. split; [exact Hrun |].
  apply (Hempty (<[py "question" := JStr (py "")]> ∅)); reflexivity.
Defined.

Example rag_answers :
  fst (rag (Scenario.serving "gpt2") (MessageChain (py "Answer: Paris."))
         (<[py "input" := JObj (<[py "question" := JStr Scenario.capital]> ∅)]> ∅)
         Scenario.s0)
  = Ok (output_response (py "Paris.")).
Proof. vm_compute. reflexivity. Qed.

(** C10, as stated, fails: with ["input"] present but not an object the
    question is missing, and the endpoint answers with an [output], not
    with the "No question provided" error. *)
Lemma rag_input_not_object :
  fst (rag Scenario.fresh (MessageChain (py "unused"))
         (<[py "input" := JNull]> ∅) Scenario.s0)
    = Ok (output_response (py "Error: 'NoneType' object has no attribute 'get'"))
  ∧ fst (rag Scenario.fresh (MessageChain (py "unused"))
         (<[py "input" := JNull]> ∅) Scenario.s0)
    ≠ Ok (error_response (py "No question provided")).
Proof. split; [vm_compute; reflexivity | vm_compute; discriminate]. Qed.

(** ** The module-level chain *)

(** C1 fails on the code.  The chain is built once, when the module is
    loaded, and [/query] invokes that chain.  Built before the first
    ingestion it is the constant "no documents" message, and it stays so
    after an index has been saved: the endpoint finds the index, lists its
    passages as sources, and still answers that nothing was ingested.
    Built with one model, it keeps answering with that model after another
    one has been saved to the configuration, while a chain built at request
    time answers with the new one. *)
Theorem query_uses_startup_chain :
  (∃ rag_chain s1,
     create_rag_chain Scenario.fresh ∅ Scenario.s0 = (Ok rag_chain, s1)
     ∧ path_exists Scenario.ingested vectorstore_path = true
     ∧ fst (query Scenario.ingested rag_chain
              {| question := Scenario.capital; include_sources := true |} s1)
       = Ok {| answer := Some (py "No documents have been ingested yet. Please ingest some documents first.");
               sources := Some [py "Paris is the capital of France.";
                                py "France is in Europe."];
               status := None; message := None; output := None |})
  ∧ (∃ rag_chain s1 fresh_chain s2,
       create_rag_chain (Scenario.serving "gpt2") ∅ Scenario.s0 = (Ok rag_chain, s1)
       ∧ create_rag_chain (Scenario.serving "distilgpt2") ∅ s1 = (Ok fresh_chain, s2)
       ∧ model (Scenario.serving "distilgpt2") ∅ = Some (py "distilgpt2")
       ∧ fst (query (Scenario.serving "distilgpt2") rag_chain
                {| question := Scenario.capital; include_sources := false |} s1)
         = Ok (answer_response (py "Paris, says gpt2"))
       ∧ fst (query (Scenario.serving "distilgpt2") fresh_chain
                {| question := Scenario.capital; include_sources := false |} s1)
         = Ok (answer_response (py "Paris, says distilgpt2"))).
Proof.
  split.
  - eexists _, _. split; [reflexivity |]. split; [reflexivity |].
    vm_compute. reflexivity.
  - eexists _, _, _, _. split; [reflexivity |]. split; [reflexivity |].
    split; [reflexivity |]. split; vm_compute; reflexivity.
Qed.

(** * Further properties of the two modules *)

(** ** Loading the index *)

Section Loading.
Variable w : world.

Lemma get_embeddings_state s :
  get_embeddings w s = (Ok (resolved_embeddings w s), after_embeddings w s).
Proof. apply get_embeddings_run. Qed.

Lemma load_vectorstore_run path s :
  load_vectorstore w path s =
    if path_exists w path then
      match FAISS_load_local w path (resolved_embeddings w s) with
      | Ok vs => (Ok (Some vs), add_trace (after_embeddings w s) [EvLoadLocal path])
      | Raise e => (Raise e, add_trace (after_embeddings w s) [EvLoadLocal path])
      end
    else (Ok None, s).
Proof.
  unfold load_vectorstore. destruct (path_exists w path); [| done]. simpl.
  unfold mbind, M_bind. rewrite get_embeddings_state.
  unfold load_local, mbind, M_bind, lift. rewrite log_add_trace.
  by destruct (FAISS_load_local _ _ _).
Qed.

Lemma get_retriever_run s :
  get_retriever w s =
    if path_exists w vectorstore_path then
      match FAISS_load_local w vectorstore_path (resolved_embeddings w s) with
      | Ok vs => (Ok (Some (as_retriever vs 4)),
                  add_trace (after_embeddings w s) [EvLoadLocal vectorstore_path])
      | Raise e => (Ok None,
                    add_trace (after_embeddings w s) [EvLoadLocal vectorstore_path])
      end
    else (Ok None, s).
Proof.
  unfold get_retriever. destruct (path_exists w vectorstore_path); [| done]. simpl.
  unfold try_except, mbind, M_bind. rewrite get_embeddings_state.
  unfold load_local, mbind, M_bind, lift. rewrite log_add_trace.
  by destruct (FAISS_load_local _ _ _).
Qed.

(** X1: the retriever loader is [load_vectorstore] at ["./vectorstore"]
    made safe: a loaded index comes back as a retriever for the 4 nearest
    documents, and an index that cannot be loaded, which [load_vectorstore]
    raises, comes back as [None], exactly as a missing one. *)
Theorem get_retriever_load_vectorstore (s : state) :
  match load_vectorstore w vectorstore_path s with
  | (Ok (Some vs), s') => get_retriever w s = (Ok (Some (as_retriever vs 4)), s')
  | (Ok None, s') =>
      get_retriever w s = (Ok None, s') ∧ path_exists w vectorstore_path = false
  | (Raise e, s') =>
      get_retriever w s = (Ok None, s')
      ∧ FAISS_load_local w vectorstore_path (resolved_embeddings w s) = Raise e
  end.
Proof.
  rewrite load_vectorstore_run, get_retriever_run.
  destruct (path_exists w vectorstore_path); [| done].
  by destruct (FAISS_load_local _ _ _).
Qed.

Lemma loads_app t t' : loads (t ++ t') = (loads t + loads t')%nat.
Proof. unfold loads. by rewrite filter_app, length_app. Qed.

Lemma loads_embeddings l : loads (map EvEmbeddings l) = 0%nat.
Proof. induction l; [done |]. unfold loads in *. simpl. by rewrite filter_cons_False. Qed.

(** What one call of [get_retriever] adds to the trace. *)
Lemma get_retriever_loads s r s' :
  get_retriever w s = (Ok (Some r), s') →
  ∃ new, trace s' = trace s ++ new ∧ loads new = 1%nat.
Proof.
  rewrite get_retriever_run. destruct (path_exists w vectorstore_path); [| done].
  destruct (FAISS_load_local _ _ _); [| done]. intros [= _ <-].
  eexists. unfold add_trace, after_embeddings. simpl. rewrite <- app_assoc.
  split; [done |]. by rewrite loads_app, loads_embeddings.
Qed.

(** X2: every [/query] that returns an answer has loaded the index from
    disk twice, once for the availability check and once for the
    sources, whether or not sources were asked for. *)
Theorem query_loads_index_twice (rag_chain : chain) (request : QueryRequest)
    (s s' : state) (resp : response) :
  query w rag_chain request s = (Ok resp, s') →
  is_Some (answer resp) →
  ∃ new, trace s' = trace s ++ new ∧ loads new = 2%nat.
Proof.
  rewrite query_run.
  destruct (get_retriever w s) as [[[r|]|e] s1] eqn:H1;
    try by intros [= <- _] [? [=]].
  destruct (chain_invoke w rag_chain (question request));
    [| by intros [= <- _] [? [=]]].
  destruct (get_retriever w s1) as [[[r2|]|e2] s2] eqn:H2;
    try by intros [= <- _] [? [=]].
  destruct (get_relevant_documents r2 (question request));
    [| by intros [= <- _] [? [=]]].
  intros [= _ <-] _.
  destruct (get_retriever_loads _ _ _ H1) as (n1 & E1 & L1).
  destruct (get_retriever_loads _ _ _ H2) as (n2 & E2 & L2).
  exists (n1 ++ n2). split.
  - by rewrite E2, E1, app_assoc.
  - by rewrite loads_app, L1, L2.
Qed.

End Loading.

Lemma query_loads_index_twice_witness :
  ∃ new,
    trace (snd (query (Scenario.serving "gpt2") (MessageChain (py "Paris."))
                  {| question := Scenario.capital; include_sources := false |}
                  Scenario.s0))
    = trace Scenario.s0 ++ new
    ∧ loads new = 2%nat.
Proof.
  apply (query_loads_index_twice (Scenario.serving "gpt2") (MessageChain (py "Paris."))
           {| question := Scenario.capital; include_sources := false |}
           Scenario.s0 _ (answer_response (py "Paris."))).
  - vm_compute. reflexivity.
  - by eexists.
Defined.

(** ** Resolving the configuration and the backend *)

Section Config.
Variable w : world.

Lemma latest_config_nonempty llm_data :
  path_exists w config_path = true →
  read_config w = Ok (Some llm_data) →
  latest_config w ≠ ∅.
Proof.
  unfold latest_config. intros -> ->. apply insert_non_empty.
Qed.

Lemma config_to_use_file llm_data gc :
  path_exists w config_path = true →
  read_config w = Ok (Some llm_data) →
  config_to_use w gc = latest_config w.
Proof.
  intros Hp Hr. unfold config_to_use.
  by rewrite (bool_decide_eq_false_2 _ (latest_config_nonempty _ Hp Hr)).
Qed.

(** X3: once the configuration file exists and has an ["llm_config"]
    object, the resolver takes every setting from it and none from
    [global_config]: two calls that differ only in [global_config] do the
    same. *)
Theorem get_llm_ignores_global_config (llm_data gc gc' : gmap pystr (option pystr))
    (s : state) :
  path_exists w config_path = true →
  read_config w = Ok (Some llm_data) →
  get_llm w gc s = get_llm w gc' s.
Proof.
  intros Hp Hr. unfold get_llm, provider, model, token.
  by rewrite !(config_to_use_file llm_data _ Hp Hr).
Qed.


Lemma config_to_use_global gc :
  path_exists w config_path = false
  ∨ (∃ e, read_config w = Raise e)
  ∨ read_config w = Ok None →
  config_to_use w gc = gc.
Proof.
  intros H. unfold config_to_use.
  assert (latest_config w = ∅) as ->.
  { unfold latest_config. destruct H as [-> | [[e ->] | ->]]; [done | |];
      by destruct (path_exists w config_path). }
  by rewrite bool_decide_eq_true_2.
Qed.

(** X5: with no usable configuration file (absent, unreadable, or without
    ["llm_config"]) and a [global_config] that names neither provider nor
    model, the resolver falls back to its built-in defaults: one local
    "text-generation" pipeline for google/flan-t5-base, wrapped as a T5
    model; a failure to build it is raised as HTTP 500. *)
Theorem get_llm_defaults (gc : gmap pystr (option pystr)) (s : state) :
  path_exists w config_path = false
  ∨ (∃ e, read_config w = Raise e)
  ∨ read_config w = Ok None →
  gc !! py "provider" = None → gc !! py "model" = None →
  get_llm w gc s =
    match transformers_pipeline w (py "text-generation")
            (Some (py "google/flan-t5-base")) (device w) with
    | Ok pipe =>
        (Ok (HFWrapper pipe true),
         add_trace s [EvPipeline (py "text-generation")
                        (Some (py "google/flan-t5-base")) (device w)])
    | Raise e =>
        (Raise (HTTPException 500 (py "Error loading local model: " ++ str_exn e)),
         add_trace s [EvPipeline (py "text-generation")
                        (Some (py "google/flan-t5-base")) (device w)])
    end.
Proof.
  intros H Hprov Hmodel. unfold get_llm, provider, model.
  rewrite !(config_to_use_global gc H), Hprov, Hmodel. simpl.
  unfold new_pipeline. run.
  by destruct (transformers_pipeline _ _ _ _).
Qed.

End Config.

Lemma get_llm_ignores_global_config_witness :
  get_llm Scenario.hf_gated ∅ Scenario.s0
  = get_llm Scenario.hf_gated (<[py "provider" := Some (py "azure")]> ∅) Scenario.s0.
Proof.
  apply (get_llm_ignores_global_config Scenario.hf_gated
           (Scenario.llm_config "hf_free" "mistralai/Mixtral-8x7B-Instruct-v0.1" ""));
    reflexivity.
Defined.


Lemma get_llm_defaults_witness :
  get_llm Scenario.fresh (<[py "token" := Some (py "unused")]> ∅) Scenario.s0
  = (Ok (HFWrapper (Scenario.pipe_of (Some (py "google/flan-t5-base"))) true),
     add_trace Scenario.s0
       [EvPipeline (py "text-generation") (Some (py "google/flan-t5-base")) (-1)]).
Proof.
  apply (get_llm_defaults Scenario.fresh _ Scenario.s0); [by left | done | done].
Defined.

Section Providers.
Variable w : world.
Variable global_config : gmap pystr (option pystr).
Local Abbreviation cfg := (config_to_use w global_config).
Local Abbreviation the_provider := (provider w global_config).
Local Abbreviation the_model := (model w global_config).
Local Abbreviation the_token := (token w global_config).





End Providers.



(** A token with a NUL is refused before the missing API version is
    looked at. *)
Example get_llm_azure_nul_token :
  get_llm (Scenario.mk_world
             (Some (Scenario.llm_config "azure" "gpt-4" (String "k" (String "000" "y"))))
             None true true) ∅ Scenario.s0
  = (Raise (HTTPException 500
              (py "Error loading Azure OpenAI model: embedded null byte")),
     Scenario.s0).
Proof. vm_compute. reflexivity. Qed.


(** ** Building and serving the chain *)

Section Chain.
Variable w : world.
Variable global_config : gmap pystr (option pystr).

(** X9: building the chain never raises.  Without an index (absent or
    not loadable) the chain is the constant "no documents" message and the
    backend is not resolved at all; when resolving the backend raises, the
    chain is the constant message "Error creating RAG chain: " followed by
    the error; otherwise it is the pipeline over the retriever and the
    backend just built. *)
Theorem create_rag_chain_outcomes (s : state) :
  match get_retriever w s with
  | (Ok (Some r), s1) =>
      match get_llm w global_config s1 with
      | (Ok l, s2) => create_rag_chain w global_config s = (Ok (RagChain r l), s2)
      | (Raise e, s2) =>
          create_rag_chain w global_config s =
            (Ok (MessageChain (py "Error creating RAG chain: " ++ str_exn e)), s2)
      end
  | (_, s1) =>
      create_rag_chain w global_config s =
        (Ok (MessageChain
               (py "No documents have been ingested yet. Please ingest some documents first.")),
         s1)
  end.
Proof.
  unfold create_rag_chain, try_except, mbind, M_bind, mret, M_ret.
  destruct (get_retriever_total w s) as (r & s1 & ->).
  destruct r as [r|]; [| done].
  by destruct (get_llm w global_config s1) as [[l|e] s2].
Qed.

End Chain.

Section Serving.
Variable w : world.

(** X10: a chain that is a constant message (what start-up leaves behind
    when there was no index or the backend could not be built) is served
    as an answer, not as an error: whenever [/query] finds the index and
    can retrieve, the response is an [answer] holding the cleaned message,
    with no [status] and no [message]. *)
Theorem query_serves_message_as_answer (msg : pystr) (request : QueryRequest)
    (s s1 s2 : state) (r1 r2 : retriever) (docs : list document) :
  get_retriever w s = (Ok (Some r1), s1) →
  get_retriever w s1 = (Ok (Some r2), s2) →
  get_relevant_documents r2 (question request) = Ok docs →
  query w (MessageChain msg) request s =
    (Ok {| answer := Some (extract_answer msg);
           sources := if include_sources request
                      then Some (map page_content docs) else None;
           status := None; message := None; output := None |}, s2).
Proof.
  intros H1 H2 Hd. rewrite query_run, H1. simpl. rewrite H2, Hd.
  by destruct (include_sources request).
Qed.

(** X11: the two shapes of a [/query] response.  It either carries an
    [answer] (with [sources] only when they were asked for) and neither
    [status] nor [message], or it is the handled error with [status]
    "error" and a [message] and neither [answer] nor [sources]; it never
    has an [output]. *)
Theorem query_response_shape (rag_chain : chain) (request : QueryRequest)
    (s s' : state) (resp : response) :
  query w rag_chain request s = (Ok resp, s') →
  output resp = None
  ∧ ((is_Some (answer resp) ∧ status resp = None ∧ message resp = None
      ∧ (is_Some (sources resp) ↔ include_sources request = true))
     ∨ (answer resp = None ∧ sources resp = None
        ∧ status resp = Some (py "error") ∧ is_Some (message resp))).
Proof.
  rewrite query_run.
  destruct (get_retriever w s) as [[[r|]|e] s1];
    try (intros [= <- _]; split; [done |]; right; by eauto).
  destruct (chain_invoke w rag_chain (question request));
    [| intros [= <- _]; split; [done |]; right; by eauto].
  destruct (get_retriever w s1) as [[[r2|]|e2] s2];
    try (intros [= <- _]; split; [done |]; right; by eauto).
  destruct (get_relevant_documents r2 (question request));
    [| intros [= <- _]; split; [done |]; right; by eauto].
  intros [= <- _]. split; [by destruct (include_sources request) |]. left.
  destruct (include_sources request); simpl; repeat split;
    first [done | by eauto | by intros [? [=]]].
Qed.

(** X12: the two shapes of a [/rag] response.  It is either the
    "No question provided" error or an [output] alone; it never carries an
    [answer] or [sources], so the passages retrieved on the [/query] path
    are never passed on. *)
Theorem rag_response_shape (rag_chain : chain) (input_data : gmap pystr json)
    (s s' : state) (resp : response) :
  rag w rag_chain input_data s = (Ok resp, s') →
  answer resp = None ∧ sources resp = None
  ∧ (resp = error_response (py "No question provided")
     ∨ ∃ o, resp = output_response o).
Proof.
  rewrite rag_run.
  destruct (json_get _ _ _) as [q|]; [| intros [= <- _]; eauto 6].
  destruct (json_truthy q); simpl; [| intros [= <- _]; eauto 6].
  destruct (new_QueryRequest w q) as [request|]; [| intros [= <- _]; eauto 6].
  destruct (query w rag_chain request s) as [[result|] s2]; intros [= <- _]; eauto 6.
Qed.

(** X13: asking [/rag] before anything was ingested.  For a question
    that is a non-empty string and no index on disk, the [output] is
    "Error: " followed by the message of the [/query] error, and nothing
    is constructed. *)
Theorem rag_no_index (rag_chain : chain) (input_data : gmap pystr json)
    (m : gmap pystr json) (text : pystr) (s : state) :
  input_of input_data = JObj m →
  m !! py "question" = Some (JStr text) →
  text ≠ [] →
  path_exists w vectorstore_path = false →
  rag w rag_chain input_data s =
    (Ok (output_response
           (py "Error: No vector store available. Please ingest documents first.")), s).
Proof.
  intros Hin Hq Hne Hp. rewrite rag_run, Hin. simpl. rewrite Hq. simpl.
  destruct text as [|c text]; [done |]. simpl.
  by rewrite query_run, (get_retriever_absent w s Hp).
Qed.

(** X14: a question that is not a string.  A value that counts as true
    but is not a string (a number, [true], a non-empty list or object)
    never reaches [/query]: the request object refuses it, and the
    [output] is "Error: " followed by the validation error, the state
    being left as it was. *)
Theorem rag_question_not_a_string (rag_chain : chain) (input_data : gmap pystr json)
    (m : gmap pystr json) (q : json) (s : state) :
  input_of input_data = JObj m →
  m !! py "question" = Some q →
  json_truthy q = true →
  (∀ text, q ≠ JStr text) →
  rag w rag_chain input_data s =
    (Ok (output_response (py "Error: " ++ str_exn (validation_error w q))), s).
Proof.
  intros Hin Hq Ht Hns. rewrite rag_run, Hin. simpl. rewrite Hq. simpl.
  rewrite Ht. simpl. destruct q; try done. by destruct (Hns s0).
Qed.

End Serving.

Lemma query_serves_message_as_answer_witness :
  fst (query (Scenario.serving "gpt2")
         (MessageChain (py "Error creating RAG chain: 400: Unsupported LLM provider: openai"))
         {| question := Scenario.capital; include_sources := false |} Scenario.s0)
  = Ok {| answer := Some (py "Error creating RAG chain: 400: Unsupported LLM provider: openai");
          sources := None; status := None; message := None; output := None |}.
Proof.
  erewrite (query_serves_message_as_answer (Scenario.serving "gpt2") _
              {| question := Scenario.capital; include_sources := false |}
              Scenario.s0 _ _ _ _ (take 4 Scenario.docs));
    [reflexivity | vm_compute; reflexivity | vm_compute; reflexivity | reflexivity].
Defined.

Lemma query_response_shape_witness :
  output (error_response (py "No vector store available. Please ingest documents first."))
    = None
  ∧ ((is_Some (answer (error_response (py "No vector store available. Please ingest documents first.")))
      ∧ status (error_response (py "No vector store available. Please ingest documents first.")) = None
      ∧ message (error_response (py "No vector store available. Please ingest documents first.")) = None
      ∧ (is_Some (sources (error_response (py "No vector store available. Please ingest documents first.")))
         ↔ true = true))
     ∨ (answer (error_response (py "No vector store available. Please ingest documents first.")) = None
        ∧ sources (error_response (py "No vector store available. Please ingest documents first.")) = None
        ∧ status (error_response (py "No vector store available. Please ingest documents first."))
          = Some (py "error")
        ∧ is_Some (message (error_response (py "No vector store available. Please ingest documents first."))))).
Proof.
  apply (query_response_shape Scenario.fresh (MessageChain (py "unused"))
           {| question := Scenario.capital; include_sources := true |}
           Scenario.s0 Scenario.s0).
  reflexivity.
Defined.

Lemma rag_response_shape_witness :
  answer (output_response (py "Paris.")) = None
  ∧ sources (output_response (py "Paris.")) = None
  ∧ (output_response (py "Paris.") = error_response (py "No question provided")
     ∨ ∃ o, output_response (py "Paris.") = output_response o).
Proof.
  apply (rag_response_shape (Scenario.serving "gpt2") (MessageChain (py "Answer: Paris."))
           (<[py "input" := JObj (<[py "question" := JStr Scenario.capital]> ∅)]> ∅)
           Scenario.s0
           (snd (rag (Scenario.serving "gpt2") (MessageChain (py "Answer: Paris."))
                   (<[py "input" := JObj (<[py "question" := JStr Scenario.capital]> ∅)]> ∅)
                   Scenario.s0))).
  vm_compute. reflexivity.
Defined.

Lemma rag_no_index_witness :
  rag Scenario.fresh (MessageChain (py "unused"))
    (<[py "input" := JObj (<[py "question" := JStr Scenario.capital]> ∅)]> ∅) Scenario.s0
  = (Ok (output_response
           (py "Error: No vector store available. Please ingest documents first.")),
     Scenario.s0).
Proof.
  apply (rag_no_index Scenario.fresh _ _ (<[py "question" := JStr Scenario.capital]> ∅)
           Scenario.capital); [reflexivity | reflexivity | discriminate | reflexivity].
Defined.

Lemma rag_question_not_a_string_witness :
  rag (Scenario.serving "gpt2") (MessageChain (py "unused"))
    (<[py "input" := JObj (<[py "question" := JInt 42]> ∅)]> ∅) Scenario.s0
  = (Ok (output_response (py "Error: 1 validation error for QueryRequest")), Scenario.s0).
Proof.
  apply (rag_question_not_a_string (Scenario.serving "gpt2") _ _
           (<[py "question" := JInt 42]> ∅) (JInt 42));
    [reflexivity | reflexivity | reflexivity | discriminate].
Defined.

(** ** Cleaning the generated text *)

Section Cleaning.
Implicit Types raw pre post : pystr.

Lemma occurs_in_strip sep s : occurs sep (strip s) → occurs sep s.
Proof.
  intros (a & b & H). destruct (strip_spec s) as (l & r & Hs & _).
  exists (l ++ a), (b ++ r). unfold occurs_at in *.
  rewrite Hs at 1. rewrite H. by rewrite <- !app_assoc.
Qed.

(** Nothing behind the last occurrence contains the separator again. *)
Lemma last_occurrence_rest sep s pre post :
  sep ≠ [] → last_occurrence sep s pre post → ¬ occurs sep post.
Proof.
  intros Hne [Hocc Hmax] (a & b & Hpost). unfold occurs_at in *.
  specialize (Hmax (pre ++ sep ++ a) b).
  rewrite !length_app in Hmax. destruct sep; [done |]. simpl in Hmax.
  assert (s = (pre ++ (n :: sep) ++ a) ++ (n :: sep) ++ b) as H.
  { rewrite Hocc, Hpost. by rewrite <- !app_assoc. }
  specialize (Hmax H). lia.
Qed.

(** An occurrence with no further one behind it is the last. *)
Lemma extract_answer_at pre post :
  ¬ occurs answer_marker post →
  extract_answer (pre ++ answer_marker ++ post) = strip post.
Proof.
  intros Hno. set (s := pre ++ answer_marker ++ post).
  assert (occurs answer_marker s) as Hocc by (by exists pre, post).
  destruct (split_marker_last s Hocc) as (pre0 & Hat & Hmax).
  unfold extract_answer. apply contains_spec in Hocc. rewrite Hocc. f_equal.
  set (rest := List.last (split answer_marker s) []) in *.
  unfold occurs_at in Hat.
  destruct (decide (length pre < length pre0)%nat) as [Hlt | Hge].
  - destruct (later_occurrence _ _ _ _ _ marker_unbordered Hat Hlt) as (u & _ & Hu).
    destruct Hno. by exists u, rest.
  - pose proof (Hmax pre post eq_refl) as Hle.
    assert (length pre = length pre0) as Hlen by lia.
    unfold s in Hat. apply app_inj_1 in Hat as [_ Hat]; [| done].
    by apply app_inv_head in Hat.
Qed.

(** X15: the cleaned answer never contains the cue "Answer:", and
    cleaning is idempotent: cleaning a cleaned answer changes nothing. *)
Theorem extract_answer_idempotent raw :
  ¬ occurs answer_marker (extract_answer raw)
  ∧ extract_answer (extract_answer raw) = extract_answer raw.
Proof.
  assert (¬ occurs answer_marker (extract_answer raw)) as Hno.
  { unfold extract_answer. destruct (contains answer_marker raw) eqn:Hc.
    - apply contains_spec in Hc.
      destruct (split_marker_last raw Hc) as (pre & Hlast).
      intros H%occurs_in_strip.
      by apply (last_occurrence_rest answer_marker raw pre _ ltac:(done) Hlast).
    - by apply contains_false. }
  split; [done |].
  apply contains_false in Hno. unfold extract_answer at 1. by rewrite Hno.
Qed.

(** X16: a backend that echoes the whole prompt before its continuation
    has the prompt cut off by the cleaning step: the answer is the
    continuation stripped of surrounding white space, as long as the
    continuation does not itself contain "Answer:" (the question and the
    context may contain the cue; the last occurrence decides).  This is
    also what the cleaning step leaves of a continuation that the local
    wrapper has already cut and stripped. *)
Theorem extract_answer_after_prompt (question context continuation : pystr) :
  ¬ occurs answer_marker continuation →
  extract_answer (rag_prompt question context ++ continuation) = strip continuation
  ∧ extract_answer (strip continuation) = strip continuation.
Proof.
  intros Hno. split.
  - set (ws := [10; 32; 32; 32; 32; 32; 32; 32; 32]).
    assert (rag_prompt question context ++ continuation
            = (template_head ++ question ++ template_mid ++ context
               ++ [32] ++ ws ++ ws)
              ++ answer_marker ++ (ws ++ continuation)) as ->.
    { unfold rag_prompt.
      change template_tail with (([32] ++ ws ++ ws) ++ answer_marker ++ ws).
      by rewrite <- !app_assoc. }
    rewrite extract_answer_at; [reflexivity |].
    intros (a & b & H). unfold occurs_at in H.
    do 9 (destruct a as [|? a]; [by simplify_eq |]).
    simplify_eq. destruct Hno. by exists a, b.
  - assert (¬ occurs answer_marker (strip continuation)) as Hs.
    { intros H. by apply Hno, occurs_in_strip. }
    apply contains_false in Hs. unfold extract_answer. by rewrite Hs.
Qed.

(** X17: whatever the pipeline generates, what the wrapper returns has
    no white space at either end; and a pipeline (not T5) whose output
    is no longer than the prompt yields the empty string, the wrapper
    cutting by length without looking at what it cuts. *)
Theorem HFWrapper_call_trimmed (pipeline : pipeline_fn) (is_t5 : bool)
    (prompt : pystr) :
  (∀ out, HFWrapper_call pipeline is_t5 prompt = Ok out → trimmed out)
  ∧ (∀ result, pipeline prompt = Ok result →
       (length result ≤ length prompt)%nat →
       HFWrapper_call pipeline false prompt = Ok []).
Proof.
  split.
  - intros out. unfold HFWrapper_call.
    destruct is_t5; destruct (pipeline prompt) as [result|]; intros [= <-];
      match goal with
      | |- trimmed (strip ?x) => by destruct (strip_spec x) as (? & ? & _ & _ & _ & ?)
      end.
  - intros result Hr Hlen. unfold HFWrapper_call. rewrite Hr.
    by rewrite drop_ge.
Qed.

End Cleaning.

Lemma extract_answer_after_prompt_witness :
  extract_answer (rag_prompt (py "Answer: what?") (py "Answer: see below") ++ py " Paris. ")
    = strip (py " Paris. ")
  ∧ extract_answer (strip (py " Paris. ")) = strip (py " Paris. ").
Proof.
  apply extract_answer_after_prompt. apply contains_false. reflexivity.
Defined.

Lemma HFWrapper_call_trimmed_witness :
  trimmed (py "Paris, says gpt2")
  ∧ HFWrapper_call (λ _, Ok (py "Paris.")) false (py "What is the capital?") = Ok [].
Proof.
  split.
  - apply (proj1 (HFWrapper_call_trimmed (Scenario.pipe_of (Some (py "gpt2"))) false
                    (py "Q?"))).
    reflexivity.
  - apply (proj2 (HFWrapper_call_trimmed (λ _, Ok (py "Paris.")) false
                    (py "What is the capital?")) (py "Paris.")).
    + reflexivity.
    + simpl. lia.
Defined.

(** * Properties of the frontend *)

(** ** The search option of the query form *)

Section SearchOption.
Import QueryInterface.

Lemma methods_cases m :
  m ∈ methods → m = py "semantic" ∨ m = py "hybrid" ∨ m = py "reranking".
Proof. unfold methods. rewrite !elem_of_cons, elem_of_nil. tauto. Qed.

(** X18: choosing a search method keeps the storage and takes effect:
    whatever [searchOption] was, the storage type derived from the new
    value is the one derived from the old, and the search method derived
    from it is the one chosen. *)
Theorem select_method_spec (m so : pystr) :
  m ∈ methods →
  storageType (select_method m so) = storageType so
  ∧ searchMethod (select_method m so) = m.
Proof.
  intros Hm. unfold select_method, storageType at 2.
  destruct (startswith (py "google_drive_") so);
    destruct (methods_cases m Hm) as [-> | [-> | ->]]; split; reflexivity.
Qed.

(** X19: choosing a storage sets the storage type, whatever
    [searchOption] was, but keeps the search method only when the storage
    was already the chosen one: switching from local to Google Drive
    resets the method to semantic, and switching from Google Drive to
    local leaves ["local_drive"], which is sent as semantic too. *)
Theorem select_storage_spec (so m : pystr) :
  m ∈ methods →
  storageType (select_local so) = py "local"
  ∧ storageType (select_google_drive so) = py "google_drive"
  ∧ select_local (py "local_" ++ m) = py "local_" ++ m
  ∧ select_google_drive (py "google_drive_" ++ m) = py "google_drive_" ++ m
  ∧ select_google_drive (py "local_" ++ m) = py "google_drive_semantic"
  ∧ select_local (py "google_drive_" ++ m) = py "local_drive"
  ∧ searchMethod (py "local_drive") = py "semantic".
Proof.
  intros Hm. split; [reflexivity |]. split; [reflexivity |].
  destruct (methods_cases m Hm) as [-> | [-> | ->]]; repeat split; reflexivity.
Qed.

Lemma states_cases so :
  so ∈ states →
  so = py "local_semantic" ∨ so = py "local_hybrid" ∨ so = py "local_reranking"
  ∨ so = py "google_drive_semantic" ∨ so = py "google_drive_hybrid"
  ∨ so = py "google_drive_reranking" ∨ so = py "local_drive".
Proof. unfold states. rewrite !elem_of_cons, elem_of_nil. tauto. Qed.

Ltac in_states := apply (bool_decide_unpack _); vm_compute; exact I.

(** X20: the values [searchOption] takes.  From its initial value the
    five handlers reach exactly seven values: the six combinations of a
    storage and a method, and ["local_drive"], for which none of the three
    search-method buttons is checked. *)
Theorem reachable_states :
  (∀ so, reachable so ↔ so ∈ states)
  ∧ (∀ m, m ∈ methods → method_checked m (py "local_drive") = false).
Proof.
  split.
  - intros so. split.
    + induction 1 as [| so _ IH | so _ IH | m so Hm _ IH].
      * in_states.
      * destruct (states_cases so IH) as [-> | [-> | [-> | [-> | [-> | [-> | ->]]]]]];
          in_states.
      * destruct (states_cases so IH) as [-> | [-> | [-> | [-> | [-> | [-> | ->]]]]]];
          in_states.
      * destruct (methods_cases m Hm) as [-> | [-> | ->]];
          destruct (states_cases so IH) as [-> | [-> | [-> | [-> | [-> | [-> | ->]]]]]];
          in_states.
    + assert (∀ m, m ∈ methods → reachable (py "local_" ++ m)) as Hlocal.
      { intros m Hm. apply (reach_method m _ Hm reach_initial). }
      assert (∀ m, m ∈ methods → reachable (py "google_drive_" ++ m)) as Hdrive.
      { intros m Hm.
        apply (reach_method m _ Hm (reach_google_drive _ reach_initial)). }
      assert (py "semantic" ∈ methods ∧ py "hybrid" ∈ methods ∧ py "reranking" ∈ methods)
        as (Hs & Hh & Hr) by (repeat split; in_states).
      intros Hin.
      destruct (states_cases so Hin) as [-> | [-> | [-> | [-> | [-> | [-> | ->]]]]]].
      * exact reach_initial.
      * exact (Hlocal _ Hh).
      * exact (Hlocal _ Hr).
      * exact (Hdrive _ Hs).
      * exact (Hdrive _ Hh).
      * exact (Hdrive _ Hr).
      * exact (reach_local _ (Hdrive _ Hs)).
  - intros m Hm. by destruct (methods_cases m Hm) as [-> | [-> | ->]].
Qed.

End SearchOption.

Lemma select_method_spec_witness :
  QueryInterface.storageType
    (QueryInterface.select_method (py "hybrid") (py "google_drive_semantic"))
    = QueryInterface.storageType (py "google_drive_semantic")
  ∧ QueryInterface.searchMethod
      (QueryInterface.select_method (py "hybrid") (py "google_drive_semantic"))
    = py "hybrid".
Proof.
  apply select_method_spec. apply (bool_decide_unpack _). vm_compute. exact I.
Defined.

Lemma select_storage_spec_witness :
  QueryInterface.select_google_drive (py "local_" ++ py "hybrid")
    = py "google_drive_semantic"
  ∧ QueryInterface.select_local (py "google_drive_" ++ py "hybrid") = py "local_drive".
Proof.
  destruct (select_storage_spec (py "local_hybrid") (py "hybrid"))
    as (_ & _ & _ & _ & Hdrive & Hlocal & _).
  - apply (bool_decide_unpack _). vm_compute. exact I.
  - split; assumption.
Defined.

(** ** Submitting a question *)

Section Submit.
Import QueryInterface.

Lemma or_else_nonempty a d : d ≠ [] → or_else a d ≠ [].
Proof. by destruct a as [[|]|]. Qed.

(** X21: [handleSubmit] reads only [answer] and [sources] of a response.
    When the request resolves with a body that has no [answer] (the
    handled error of the backend, sent with HTTP 200), nothing of it is
    shown: no error box, and the answer column falls back to its
    placeholder, whatever [status] and [message] say. *)
Theorem handleSubmit_drops_handled_error (st : ui) (data : response) :
  answer data = None →
  error_box (handleSubmit st (Resolved data)) = None
  ∧ answer_panel (handleSubmit st (Resolved data)) = Placeholder
  ∧ app_answer (handleSubmit st (Resolved data)) = [].
Proof. by intros H; unfold error_box, answer_panel; simpl; rewrite H. Qed.

(** A handled error of [/query] carries no answer. *)
Lemma query_error_no_answer w rag_chain request s resp s' :
  query w rag_chain request s = (Ok resp, s') →
  is_Some (status resp) → answer resp = None.
Proof.
  rewrite query_run.
  destruct (get_retriever w s) as [[[r|]|e] s1]; try by intros [= <- _].
  destruct (chain_invoke w rag_chain (question request)); [| by intros [= <- _]].
  destruct (get_retriever w s1) as [[[r2|]|e2] s2]; try by intros [= <- _].
  destruct (get_relevant_documents r2 (question request)); [| by intros [= <- _]].
  intros [= <- _]. destruct (include_sources request); by intros [? [=]].
Qed.

(** X22: the form and the endpoint together.  Whenever [/query] answers
    the form's request with its handled error (no index, a retrieval or
    generation failure), the user is shown neither the error nor an
    answer: the message of the response is dropped. *)
Theorem query_error_is_not_shown (w : world) (rag_chain : chain) (st : ui)
    (s s' : state) (resp : response) :
  query w rag_chain (request_of st) s = (Ok resp, s') →
  status resp = Some (py "error") →
  is_Some (message resp)
  ∧ error_box (handleSubmit st (Resolved resp)) = None
  ∧ answer_panel (handleSubmit st (Resolved resp)) = Placeholder.
Proof.
  intros Hq Hs.
  assert (answer resp = None) as Ha.
  { apply (query_error_no_answer _ _ _ _ _ _ Hq). by rewrite Hs. }
  split.
  - clear Ha. revert Hq Hs. rewrite query_run.
    destruct (get_retriever w s) as [[[r|]|e] s1]; try by intros [= <- _]; eauto.
    destruct (chain_invoke w rag_chain _); [| by intros [= <- _]; eauto].
    destruct (get_retriever w s1) as [[[r2|]|e2] s2]; try by intros [= <- _]; eauto.
    destruct (get_relevant_documents r2 _); [| by intros [= <- _]; eauto].
    intros [= <- _]. simpl. by destruct (showSources st).
  - unfold error_box, answer_panel. simpl. by rewrite Ha.
Qed.

(** X23: a request that fails (network error, non-2xx status) always
    shows an error box, with the first non-empty of the response's
    message, the error's message and "Failed to get response"; the answer
    column keeps the answer of the previous question, only the App-level
    answer and the sources being cleared. *)
Theorem handleSubmit_rejected (st : ui) (response_message err_message : option pystr) :
  let st' := handleSubmit st (Rejected response_message err_message) in
  is_Some (error_box st')
  ∧ error st' = or_else response_message (or_else err_message "Failed to get response")
  ∧ localAnswer st' = localAnswer st
  ∧ app_answer st' = [] ∧ shown_sources st' = [].
Proof.
  simpl. split; [| done]. unfold error_box. simpl.
  pose proof (or_else_nonempty response_message
                (or_else err_message (py "Failed to get response"))
                (or_else_nonempty err_message (py "Failed to get response")
                   ltac:(done))) as Hne.
  destruct (or_else response_message _) eqn:E; [done | by eexists].
Qed.

End Submit.

Lemma handleSubmit_drops_handled_error_witness :
  QueryInterface.error_box
    (QueryInterface.handleSubmit
       {| QueryInterface.query_text := Scenario.capital;
          QueryInterface.shown_sources := [];
          QueryInterface.showSources := false;
          QueryInterface.localAnswer := py "an earlier answer";
          QueryInterface.isLoading := false;
          QueryInterface.error := [];
          QueryInterface.searchOption := py "local_semantic";
          QueryInterface.app_answer := [];
          QueryInterface.app_isLoading := false;
          QueryInterface.app_error := [] |}
       (QueryInterface.Resolved
          (error_response (py "No vector store available. Please ingest documents first."))))
  = None.
Proof.
  apply handleSubmit_drops_handled_error. reflexivity.
Defined.

Lemma query_error_is_not_shown_witness :
  QueryInterface.error_box
    (QueryInterface.handleSubmit
       {| QueryInterface.query_text := Scenario.capital;
          QueryInterface.shown_sources := [];
          QueryInterface.showSources := true;
          QueryInterface.localAnswer := [];
          QueryInterface.isLoading := false;
          QueryInterface.error := [];
          QueryInterface.searchOption := py "local_semantic";
          QueryInterface.app_answer := [];
          QueryInterface.app_isLoading := false;
          QueryInterface.app_error := [] |}
       (QueryInterface.Resolved
          (error_response (py "No vector store available. Please ingest documents first."))))
  = None.
Proof.
  apply (query_error_is_not_shown Scenario.fresh (MessageChain (py "unused")) _
           Scenario.s0 Scenario.s0); reflexivity.
Defined.

(** ** Saving the settings *)

Section Settings.
Import DataSourceConfigStorage.



Section Form.
Variable File : Type.
Implicit Types st : form File.

(** X25: what the settings form with a choice of storage sends.  With
    Google Drive storage selected and no authenticated Google session nothing is sent
    and the user is told to authenticate.  Otherwise exactly one request
    goes out: the LLM tab posts JSON to [/save-llm-settings], every other
    tab posts a form to [/ingest]; either way the configuration sent
    carries the source type, the storage configuration and the current
    LLM settings, and files are attached only from the file tab. *)
Theorem handleSubmit_request st :
  (needs_google_login File st = true →
     handleSubmit File st =
       NotSent File "You must be authenticated with Google to use Google Drive storage.")
  ∧ (needs_google_login File st = false →
     ∃ url attached config,
       ((handleSubmit File st = PostJson File url config
         ∧ sourceType File st = py "llm"
         ∧ url = py "http://localhost:8000/save-llm-settings" ∧ attached = [])
        ∨ (handleSubmit File st = PostForm File url attached config
           ∧ sourceType File st ≠ py "llm"
           ∧ url = py "http://localhost:8000/ingest"))
       ∧ config !! py "llm_config" = Some (llmConfig File st)
       ∧ config !! py "sourceType" = Some (JStr (sourceType File st))
       ∧ config !! py "storage_config" = Some (JObj (storageConfig File st))
       ∧ (attached ≠ [] → sourceType File st = py "file" ∧ attached = files File st)).
Proof.
  unfold handleSubmit. fold (needs_google_login File st).
  split; intros ->; [done |]. cbn [andb negb].
  destruct (bool_decide (sourceType File st = py "llm")) eqn:Hllm.
  - apply bool_decide_eq_true_1 in Hllm. rewrite Hllm. simpl.
    eexists _, [], _. split; [left; done |]. by repeat split.
  - apply bool_decide_eq_false_1 in Hllm.
    eexists _, _, _. split; [right; done |].
    split; [by rewrite lookup_insert_eq |].
    assert (∀ (v : json) (m : gmap pystr json) k,
              k ≠ py "sourceType" → k ≠ py "storage_config" →
              m !! py "sourceType" = Some (JStr (sourceType File st)) →
              m !! py "storage_config" = Some (JObj (storageConfig File st)) →
              <[k := v]> m !! py "sourceType" = Some (JStr (sourceType File st))
              ∧ <[k := v]> m !! py "storage_config" = Some (JObj (storageConfig File st)))
      as Hkeep.
    { intros v m k H1 H2 Hs Hc. by rewrite !lookup_insert_ne. }
    assert (∀ (m : gmap pystr json),
              m !! py "sourceType" = Some (JStr (sourceType File st))
              ∧ m !! py "storage_config" = Some (JObj (storageConfig File st)) →
              <[py "llm_config" := llmConfig File st]> m !! py "sourceType"
                = Some (JStr (sourceType File st))
              ∧ <[py "llm_config" := llmConfig File st]> m !! py "storage_config"
                = Some (JObj (storageConfig File st))) as Hllmkeep.
    { intros m [Hs Hc]. by apply Hkeep. }
    assert ((<[py "storage_config" := JObj (storageConfig File st)]>
               (<[py "sourceType" := JStr (sourceType File st)]> (∅ : gmap pystr json)))
              !! py "sourceType" = Some (JStr (sourceType File st))
            ∧ (<[py "storage_config" := JObj (storageConfig File st)]>
                 (<[py "sourceType" := JStr (sourceType File st)]> (∅ : gmap pystr json)))
                !! py "storage_config" = Some (JObj (storageConfig File st))) as Hbase.
    { split; [by rewrite lookup_insert_ne, lookup_insert_eq | by rewrite lookup_insert_eq]. }
    split; [| split].
    + apply Hllmkeep. repeat case_bool_decide; try done; by apply Hkeep.
    + apply Hllmkeep. repeat case_bool_decide; try done; by apply Hkeep.
    + case_bool_decide; done.
Qed.

End Form.
End Settings.


Lemma handleSubmit_request_witness :
  DataSourceConfigStorage.handleSubmit nat
    {| DataSourceConfigStorage.sourceType := py "file";
       DataSourceConfigStorage.storageConfig := <[py "type" := JStr (py "google_drive")]> ∅;
       DataSourceConfigStorage.mysqlConfig := JNull;
       DataSourceConfigStorage.urlConfig := JNull;
       DataSourceConfigStorage.googleConfig := JNull;
       DataSourceConfigStorage.llmConfig := JNull;
       DataSourceConfigStorage.googleAuthStatus := None;
       DataSourceConfigStorage.files := [1%nat] |}
  = DataSourceConfigStorage.NotSent nat
      "You must be authenticated with Google to use Google Drive storage.".
Proof.
  apply (proj1 (handleSubmit_request nat _)). reflexivity.
Defined.

(** ** Without an embedding backend *)

Section NoBackend.
Variable w : world.
Variable FAISS_from_texts : list pystr → embeddings → result vectorstore.

Lemma first_success_all_fail init attempts stub :
  (∀ a, init a ≠ None) →
  first_success init attempts stub = (attempts ++ [stub], stub).
Proof.
  intros Hfail. induction attempts as [|a rest IH]; [done |]. simpl.
  destruct (init a) eqn:Ha; [| by destruct (Hfail a)]. by rewrite IH.
Qed.

(** X26: when no embedding backend can be constructed, nothing fails for
    it: loading the index and creating the placeholder index both go on
    with the 384-dimensional stub embeddings, after every step of the
    ladder has been tried, and raise only what FAISS itself raises. *)
Theorem stub_embeddings_are_used (s : state) :
  (∀ env e, embeddings_init w env e ≠ None) →
  let s' := {| environ := azure_environ w (environ s);
               trace := trace s ++ map EvEmbeddings (ladder w ++ [FakeEmbeddings 384]) |} in
  create_empty_vectorstore w FAISS_from_texts s =
    (FAISS_from_texts [py "This is a placeholder document."] (FakeEmbeddings 384), s')
  ∧ (path_exists w vectorstore_path = true →
     load_vectorstore w vectorstore_path s =
       (match FAISS_load_local w vectorstore_path (FakeEmbeddings 384) with
        | Ok vs => Ok (Some vs)
        | Raise e => Raise e
        end, add_trace s' [EvLoadLocal vectorstore_path])).
Proof.
  intros Hfail. simpl.
  assert (resolved_embeddings w s = FakeEmbeddings 384
          ∧ after_embeddings w s
            = {| environ := azure_environ w (environ s);
                 trace := trace s ++ map EvEmbeddings (ladder w ++ [FakeEmbeddings 384]) |})
    as [Hres Hafter].
  { unfold resolved_embeddings, after_embeddings.
    by rewrite (first_success_all_fail _ _ _ (Hfail _)). }
  split.
  - unfold create_empty_vectorstore, mbind, M_bind, lift.
    by rewrite get_embeddings_state, Hres, Hafter.
  - intros Hp. rewrite load_vectorstore_run, Hp, Hres, Hafter.
    by destruct (FAISS_load_local _ _ _).
Qed.

End NoBackend.

Lemma stub_embeddings_are_used_witness :
  fst (load_vectorstore (Scenario.no_embeddings (Scenario.serving "gpt2"))
         vectorstore_path Scenario.s0)
  = match FAISS_load_local (Scenario.no_embeddings (Scenario.serving "gpt2"))
            vectorstore_path (FakeEmbeddings 384) with
    | Ok vs => Ok (Some vs)
    | Raise e => Raise e
    end.
Proof.
  rewrite (proj2 (stub_embeddings_are_used (Scenario.no_embeddings (Scenario.serving "gpt2"))
                    (λ _ _, Raise Scenario.boom) Scenario.s0 ltac:(done)) eq_refl).
  reflexivity.
Defined.

(** ** The settings form of [DataSourceConfig.jsx] *)

Section NamedForm.
Import DataSourceConfig.


Section Form.
Variable File : Type.
Implicit Types st : form File.

(** X28: what the settings form sends.  Every tab posts to [/ingest],
    and the configuration always carries the source type and the current
    LLM settings; the configuration of a source is included exactly on
    that source's tab; files (and their metadata) go out only from the
    file tab, and never more than the first five of a selection. *)
Theorem handleSubmit_ingest st (selected : list File) :
  url File (handleSubmit File st) = py "http://localhost:8000/ingest"
  ∧ config File (handleSubmit File st) !! py "llm_config" = Some (llmConfig File st)
  ∧ config File (handleSubmit File st) !! py "sourceType"
    = Some (JStr (sourceType File st))
  ∧ (is_Some (config File (handleSubmit File st) !! py "mysql_config")
     ↔ sourceType File st = py "mysql")
  ∧ (is_Some (config File (handleSubmit File st) !! py "url_config")
     ↔ sourceType File st = py "url")
  ∧ (is_Some (config File (handleSubmit File st) !! py "google_config")
     ↔ sourceType File st = py "google")
  ∧ (attached File (handleSubmit File st) ≠ [] → sourceType File st = py "file")
  ∧ (is_Some (file_metadata File (handleSubmit File st)) ↔ sourceType File st = py "file")
  ∧ attached File (handleSubmit File (handleFileChange File st selected))
    `prefix_of` selected
  ∧ (length (attached File (handleSubmit File (handleFileChange File st selected))) ≤ 5)%nat.
Proof.
  unfold handleSubmit. cbn [url config attached file_metadata handleFileChange
                            sourceType files].
  split; [done |].
  repeat (split; [
    repeat case_bool_decide; simplify_eq;
    rewrite ?lookup_insert_eq, ?lookup_insert_ne, ?lookup_insert_eq, ?lookup_empty by done;
    first [ done | by split; [intros [? [=]] | intros [=]] | by split; [eauto | done]
          | by split; [intros [? [=]] | done] ] |]).
  split.
  - case_bool_decide; [apply prefix_take | apply prefix_nil].
  - case_bool_decide; [rewrite length_take; lia | simpl; lia].
Qed.

End Form.
End NamedForm.

